(** * Emotion decoding chatbot: the response extractor and its handlers

    A shallow embedding of [src/app.py]: the text operations the extractor
    [_parse_emotion_response] is built from ([in], [str.split], [str.strip],
    [json.loads]), the three analysis handlers of [EmotionDecoder] and the
    three Flask routes in front of them, followed by the properties of the
    specification that concern them. *)

From Stdlib Require Import List NArith ZArith Bool String Ascii Lia.
Import ListNotations.

Set Implicit Arguments.
Set Warnings "-register-all".
#[local] Open Scope list_scope.

(** ** Python text

    A Python [str] is a sequence of Unicode code points.  Code points are
    kept as [N]; literals are written as Rocq strings and read through
    [py]. *)

Definition char := N.
Definition str := list char.

Definition py (s : string) : str :=
  map N_of_ascii (list_ascii_of_string s).

(** The double quote, which a literal cannot hold. *)
Definition dquote : char := 34%N.

(** [pyq] reads a literal in which every apostrophe stands for a double
    quote; it is used to write JSON texts. *)
Definition pyq (s : string) : str :=
  map (fun c => if N.eqb c 39 then dquote else c) (py s).

Fixpoint str_eqb (a b : str) : bool :=
  match a, b with
  | [], [] => true
  | x :: a', y :: b' => N.eqb x y && str_eqb a' b'
  | _, _ => false
  end.

(** [starts_with p s] is [s.startswith(p)]. *)
Fixpoint starts_with (p s : str) : bool :=
  match p, s with
  | [], _ => true
  | a :: p', b :: s' => N.eqb a b && starts_with p' s'
  | _ :: _, [] => false
  end.

(** [find sep s] is [s.find(sep)]: the index of the leftmost occurrence of
    [sep] in [s], [None] where Python answers [-1]. *)
Fixpoint find (sep s : str) : option nat :=
  if starts_with sep s then Some 0
  else match s with
       | [] => None
       | _ :: s' => option_map S (find sep s')
       end.

(** [contains sep s] is [sep in s]. *)
Definition contains (sep s : str) : bool :=
  match find sep s with Some _ => true | None => false end.

(** [str.split(sep)] for a non-empty separator: scan left to right, cut at
    each leftmost occurrence and resume after it, so occurrences never
    overlap.  The fuel bounds the number of cuts; a text of length [n] has
    at most [n] of them. *)
Fixpoint split_from (fuel : nat) (sep s : str) : list str :=
  match fuel with
  | O => [s]
  | S fuel' =>
      match find sep s with
      | None => [s]
      | Some j => firstn j s :: split_from fuel' sep (skipn (j + List.length sep) s)
      end
  end.

(** ** Exceptions

    Only exceptions deriving from [Exception] are modelled: they are the
    ones [except Exception] and the bare [except:] of the source both
    catch.  [str(e)] is the message. *)

Inductive exn_class :=
| ValueError | TypeError | IndexError | AttributeError | JSONDecodeError
| OtherError (name : str).

Record exn := Exn { exn_cls : exn_class; exn_msg : str }.

Inductive Result (A : Type) :=
| Ok (a : A)
| Raise (e : exn).
Arguments Ok {A} a.
Arguments Raise {A} e.

Definition rbind {A B} (r : Result A) (k : A -> Result B) : Result B :=
  match r with Ok a => k a | Raise e => Raise e end.

(** [s.split(sep)]; Python raises [ValueError] on the empty separator. *)
Definition split (sep s : str) : Result (list str) :=
  match sep with
  | [] => Raise (Exn ValueError (py "empty separator"))
  | _ :: _ => Ok (split_from (List.length s) sep s)
  end.

(** [l[i]] on a list; out of range raises [IndexError]. *)
Definition getitem {A} (l : list A) (i : nat) : Result A :=
  match nth_error l i with
  | Some a => Ok a
  | None => Raise (Exn IndexError (py "list index out of range"))
  end.

(** [str.isspace] on one code point: the Unicode white space of CPython. *)
Definition py_isspace (c : char) : bool :=
  ((9 <=? c) && (c <=? 13) || (28 <=? c) && (c <=? 32)
   || (c =? 133) || (c =? 160) || (c =? 5760)
   || (8192 <=? c) && (c <=? 8202)
   || (c =? 8232) || (c =? 8233) || (c =? 8239) || (c =? 8287)
   || (c =? 12288))%N.

Fixpoint lstrip (s : str) : str :=
  match s with
  | [] => []
  | c :: s' => if py_isspace c then lstrip s' else s
  end.

Definition rstrip (s : str) : str := rev (lstrip (rev s)).

(** [s.strip()]. *)
Definition strip (s : str) : str := rstrip (lstrip s).

(** ** Python objects

    The values the program handles: what [json.loads] builds, plus [bytes].
    A [dict] is kept in insertion order, as Python keeps it; its keys here
    are always [str]. *)

(** A [float] is kept as the decimal it was read from, [m * 10^e]; the
    rounding to binary64 is applied where a result depends on it. *)
Inductive pyfloat :=
| FDec (m e : Z)
| FNaN
| FInf (negative : bool).

Inductive pyobj :=
| PNone
| PBool (b : bool)
| PInt (z : Z)
| PFloat (f : pyfloat)
| PStr (s : str)
| PBytes (b : list N)
| PList (l : list pyobj)
| PDict (d : list (str * pyobj)).

Definition dict := list (str * pyobj).

(** [d.get(k)], [None] when the key is absent. *)
Fixpoint dict_get (d : dict) (k : str) : option pyobj :=
  match d with
  | [] => None
  | (k', v) :: d' => if str_eqb k' k then Some v else dict_get d' k
  end.

(** [d[k] = v]: an existing key keeps its place, a new one goes last. *)
Fixpoint dict_set (d : dict) (k : str) (v : pyobj) : dict :=
  match d with
  | [] => [(k, v)]
  | (k', v') :: d' =>
      if str_eqb k' k then (k', v) :: d' else (k', v') :: dict_set d' k v
  end.

(** A decimal [m * 10^e] rounds to the float zero exactly when it is zero
    or at most [2^-1075] in magnitude (half of the least subnormal). *)
Definition rounds_to_zero (m e : Z) : bool :=
  ((m =? 0) || (e <? 0) && (Z.abs m * 2 ^ 1075 <=? 10 ^ (- e)))%Z.

(** [bool(v)], the truth value [if v:] and [not v] test. *)
Definition truthy (v : pyobj) : bool :=
  match v with
  | PNone => false
  | PBool b => b
  | PInt z => negb (z =? 0)%Z
  | PFloat (FDec m e) => negb (rounds_to_zero m e)
  | PFloat _ => true
  | PStr s => match s with [] => false | _ => true end
  | PBytes b => match b with [] => false | _ => true end
  | PList l => match l with [] => false | _ => true end
  | PDict d => match d with [] => false | _ => true end
  end.

(** [type(v).__name__]. *)
Definition type_name (v : pyobj) : str :=
  match v with
  | PNone => py "NoneType"
  | PBool _ => py "bool"
  | PInt _ => py "int"
  | PFloat _ => py "float"
  | PStr _ => py "str"
  | PBytes _ => py "bytes"
  | PList _ => py "list"
  | PDict _ => py "dict"
  end.

(** [obj[key] = value] with a [str] key.  Only a [dict] takes it; every
    other object raises [TypeError], with CPython's message. *)
Definition setitem (obj : pyobj) (key : str) (value : pyobj) : Result pyobj :=
  match obj with
  | PDict d => Ok (PDict (dict_set d key value))
  | PList _ =>
      Raise (Exn TypeError (py "list indices must be integers or slices, not str"))
  | _ =>
      Raise (Exn TypeError
               (py "'" ++ type_name obj ++ py "' object does not support item assignment"))
  end.

(** [obj.get(key, default)]: a [dict] method; the other objects have no
    such attribute. *)
Definition get_method (obj : pyobj) (key : str) (default : pyobj) : Result pyobj :=
  match obj with
  | PDict d => Ok (match dict_get d key with Some v => v | None => default end)
  | _ =>
      Raise (Exn AttributeError
               (py "'" ++ type_name obj ++ py "' object has no attribute 'get'"))
  end.

(** ** [json.loads]

    The decoder of the standard library, as a lexer followed by a stack
    parser; both are total.  It accepts what CPython accepts with its
    default settings: JSON plus the constants [NaN], [Infinity] and
    [-Infinity], with strict string contents.  Limits of the interpreter
    (recursion depth, digit count of integers) are not modelled. *)

Module Json.

Inductive token :=
| TLBrace | TRBrace | TLBrack | TRBrack | TColon | TComma
| TScalar (v : pyobj).

(** White space of the decoder: space, tab, line feed, carriage return. *)
Definition ws (c : char) : bool :=
  ((c =? 32) || (c =? 9) || (c =? 10) || (c =? 13))%N.

Definition is_digit (c : char) : bool := ((48 <=? c) && (c <=? 57))%N.

Fixpoint span_digits (s : str) : str * str :=
  match s with
  | [] => ([], [])
  | c :: s' =>
      if is_digit c then let (ds, r) := span_digits s' in (c :: ds, r)
      else ([], s)
  end.

Definition digits_val (ds : str) : Z :=
  fold_left (fun acc c => (acc * 10 + Z.of_N (c - 48))%Z) ds 0%Z.

Definition hex_val (c : char) : option N :=
  (if (48 <=? c) && (c <=? 57) then Some (c - 48)
   else if (65 <=? c) && (c <=? 70) then Some (c - 55)
   else if (97 <=? c) && (c <=? 102) then Some (c - 87)
   else None)%N.

Definition hex4 (a b c d : char) : option N :=
  match hex_val a, hex_val b, hex_val c, hex_val d with
  | Some x, Some y, Some z, Some w => Some (((x * 16 + y) * 16 + z) * 16 + w)%N
  | _, _, _, _ => None
  end.

(** The one-letter escapes. *)
Definition backslash (c : char) : option char :=
  (if c =? 34 then Some 34
   else if c =? 92 then Some 92
   else if c =? 47 then Some 47
   else if c =? 98 then Some 8
   else if c =? 102 then Some 12
   else if c =? 110 then Some 10
   else if c =? 114 then Some 13
   else if c =? 116 then Some 9
   else None)%N.

(** The body of a string, from just after its opening quote: the decoded
    text and the number of code points read, closing quote included.
    [acc] is the text so far, reversed. *)
Fixpoint scan_string (s : str) (acc : str) (n : nat) : option (str * nat) :=
  match s with
  | [] => None
  | c :: r =>
      if (c =? 34)%N then Some (rev acc, S n)
      else if (c <? 32)%N then None
      else if negb (c =? 92)%N then scan_string r (c :: acc) (S n)
      else
        match r with
        | [] => None
        | e :: r1 =>
            if negb (e =? 117)%N then
              match backslash e with
              | Some x => scan_string r1 (x :: acc) (n + 2)
              | None => None
              end
            else
              match r1 with
              | h1 :: h2 :: h3 :: h4 :: r2 =>
                  match hex4 h1 h2 h3 h4 with
                  | None => None
                  | Some u =>
                      let single := scan_string r2 (u :: acc) (n + 6) in
                      if ((55296 <=? u) && (u <=? 56319))%N then
                        match r2 with
                        | b :: u' :: g1 :: g2 :: g3 :: g4 :: r3 =>
                            if ((b =? 92) && (u' =? 117))%N then
                              match hex4 g1 g2 g3 g4 with
                              | None => None
                              | Some u2 =>
                                  if ((56320 <=? u2) && (u2 <=? 57343))%N then
                                    scan_string r3
                                      ((65536 + (u - 55296) * 1024 + (u2 - 56320))%N :: acc)
                                      (n + 12)
                                  else single
                              end
                            else single
                        | _ => single
                        end
                      else single
                  end
              | _ => None
              end
        end
  end.

(** A number at the head of [s], by the decoder's pattern: an optional
    minus sign; a zero, or a non-zero digit and more digits; optionally a
    dot and one digit or more; optionally [e] or [E], a sign and one digit
    or more.  It is an [int] without fraction and exponent, a [float]
    otherwise. *)
Definition scan_number (s : str) : option (pyobj * nat) :=
  let (neg, s1) :=
    match s with
    | c :: r => if (c =? 45)%N then (true, r) else (false, s)
    | [] => (false, s)
    end in
  let sign (z : Z) := if neg then (- z)%Z else z in
  let n0 := if neg then 1 else 0 in
  match s1 with
  | [] => None
  | c :: r =>
      if negb (is_digit c) then None
      else
        let (ip, s2) := if (c =? 48)%N then ([c], r) else span_digits s1 in
        let (fp, s3) :=
          match s2 with
          | d :: r2 =>
              if (d =? 46)%N then
                let (fs, r3) := span_digits r2 in
                match fs with [] => ([], s2) | _ => (fs, r3) end
              else ([], s2)
          | [] => ([], s2)
          end in
        let flen := match fp with [] => 0 | _ => S (List.length fp) end in
        let ex : option (Z * nat) :=
          match s3 with
          | x :: r3 =>
              if ((x =? 101) || (x =? 69))%N then
                let '(eneg, sl, r4) :=
                  match r3 with
                  | g :: r5 =>
                      if (g =? 45)%N then (true, 1, r5)
                      else if (g =? 43)%N then (false, 1, r5)
                      else (false, 0, r3)
                  | [] => (false, 0, r3)
                  end in
                let (es, _) := span_digits r4 in
                match es with
                | [] => None
                | _ => Some (if eneg then (- digits_val es)%Z else digits_val es,
                             S (sl + List.length es))
                end
              else None
          | [] => None
          end in
        let base := n0 + List.length ip + flen in
        match fp, ex with
        | [], None => Some (PInt (sign (digits_val ip)), base)
        | _, None =>
            Some (PFloat (FDec (sign (digits_val (ip ++ fp)))
                             (- Z.of_nat (List.length fp))), base)
        | _, Some (e, elen) =>
            Some (PFloat (FDec (sign (digits_val (ip ++ fp)))
                             (e - Z.of_nat (List.length fp))), base + elen)
        end
  end.

(** The token at the head of [s] and its length. *)
Definition scan_token (s : str) : option (token * nat) :=
  match s with
  | [] => None
  | c :: r =>
      if (c =? 123)%N then Some (TLBrace, 1)
      else if (c =? 125)%N then Some (TRBrace, 1)
      else if (c =? 91)%N then Some (TLBrack, 1)
      else if (c =? 93)%N then Some (TRBrack, 1)
      else if (c =? 58)%N then Some (TColon, 1)
      else if (c =? 44)%N then Some (TComma, 1)
      else if (c =? 34)%N then
        match scan_string r [] 1 with
        | Some (x, n) => Some (TScalar (PStr x), n)
        | None => None
        end
      else if starts_with (py "null") s then Some (TScalar PNone, 4)
      else if starts_with (py "true") s then Some (TScalar (PBool true), 4)
      else if starts_with (py "false") s then Some (TScalar (PBool false), 5)
      else
        match scan_number s with
        | Some r => Some (TScalar (fst r), snd r)
        | None =>
            if starts_with (py "NaN") s then Some (TScalar (PFloat FNaN), 3)
            else if starts_with (py "Infinity") s then
              Some (TScalar (PFloat (FInf false)), 8)
            else if starts_with (py "-Infinity") s then
              Some (TScalar (PFloat (FInf true)), 9)
            else None
        end
  end.

(** The tokens of a text.  [skip] counts the code points of the current
    token still to pass over. *)
Fixpoint lex (skip : nat) (s : str) : option (list token) :=
  match s with
  | [] => Some []
  | c :: s' =>
      match skip with
      | S k => lex k s'
      | O =>
          if ws c then lex 0 s'
          else
            match scan_token s with
            | Some (t, n) =>
                match lex (pred n) s' with
                | Some ts => Some (t :: ts)
                | None => None
                end
            | None => None
            end
      end
  end.

(** Containers under construction. *)
Inductive frame :=
| FArr (items_rev : list pyobj)
| FObj (fields : dict)
| FObjV (fields : dict) (key : str).

Inductive pstate :=
| SValue
| SValueOrClose
| SKeyOrClose
| SKey
| SColon (key : str)
| SCommaOrClose
| SDone (v : pyobj).

(** A value is complete: it is the document, an array item or the value
    of the pending key (a repeated key keeps its last value). *)
Definition complete (v : pyobj) (stack : list frame) : option (pstate * list frame) :=
  match stack with
  | [] => Some (SDone v, [])
  | FArr its :: rest => Some (SCommaOrClose, FArr (v :: its) :: rest)
  | FObjV fs k :: rest => Some (SCommaOrClose, FObj (dict_set fs k v) :: rest)
  | FObj _ :: _ => None
  end.

Definition begin_value (t : token) (stack : list frame) : option (pstate * list frame) :=
  match t with
  | TScalar v => complete v stack
  | TLBrack => Some (SValueOrClose, FArr [] :: stack)
  | TLBrace => Some (SKeyOrClose, FObj [] :: stack)
  | _ => None
  end.

Definition step (st : pstate) (stack : list frame) (t : token)
  : option (pstate * list frame) :=
  match st with
  | SValue => begin_value t stack
  | SValueOrClose =>
      match t, stack with
      | TRBrack, FArr _ :: rest => complete (PList []) rest
      | _, _ => begin_value t stack
      end
  | SKeyOrClose =>
      match t, stack with
      | TRBrace, FObj _ :: rest => complete (PDict []) rest
      | TScalar (PStr k), _ => Some (SColon k, stack)
      | _, _ => None
      end
  | SKey =>
      match t with
      | TScalar (PStr k) => Some (SColon k, stack)
      | _ => None
      end
  | SColon k =>
      match t, stack with
      | TColon, FObj fs :: rest => Some (SValue, FObjV fs k :: rest)
      | _, _ => None
      end
  | SCommaOrClose =>
      match t, stack with
      | TComma, FArr _ :: _ => Some (SValue, stack)
      | TComma, FObj _ :: _ => Some (SKey, stack)
      | TRBrack, FArr its :: rest => complete (PList (rev its)) rest
      | TRBrace, FObj fs :: rest => complete (PDict fs) rest
      | _, _ => None
      end
  | SDone _ => None
  end.

Fixpoint run (st : pstate) (stack : list frame) (ts : list token) : option pyobj :=
  match ts with
  | [] => match st with SDone v => Some v | _ => None end
  | t :: ts' =>
      match step st stack t with
      | Some (st', stack') => run st' stack' ts'
      | None => None
      end
  end.

Definition decode (s : str) : option pyobj :=
  match lex 0 s with
  | Some ts => run SValue [] ts
  | None => None
  end.

End Json.

(** [json.loads(s)]: the decoded object, or [JSONDecodeError].  The message
    is left empty: the program never looks at it. *)
Definition json_loads (s : str) : Result pyobj :=
  match Json.decode s with
  | Some v => Ok v
  | None => Raise (Exn JSONDecodeError [])
  end.

(** ** The extractor: [EmotionDecoder._parse_emotion_response] *)

Definition fence_json : str := py "```json".
Definition fence : str := py "```".

(** The candidate [json_str] chosen by the [if]/[elif]/[else] of the
    extractor.  Indexing the pieces of a split can raise [IndexError]. *)
Definition json_str (response_text : str) : Result str :=
  if contains fence_json response_text then
    rbind (split fence_json response_text) (fun parts =>
    rbind (getitem parts 1) (fun piece =>
    rbind (split fence piece) (fun parts' =>
    getitem parts' 0)))
  else if contains fence response_text then
    rbind (split fence response_text) (fun parts =>
    rbind (getitem parts 1) (fun piece =>
    rbind (split fence piece) (fun parts' =>
    getitem parts' 0)))
  else Ok response_text.

(** The record of the bare [except:] branch. *)
Definition fallback (response_text : str) : pyobj :=
  PDict [ (py "primary_emotion", PStr (py "unknown"));
          (py "confidence", PInt 0);
          (py "explanation", PStr response_text);
          (py "raw_response", PStr response_text) ].

(** The whole [try] block is one fallible computation; whatever it raises
    is swallowed by the bare [except:]. *)
Definition _parse_emotion_response (response_text : str) : pyobj :=
  match rbind (json_str response_text) (fun js => json_loads (strip js)) with
  | Ok result => result
  | Raise _ => fallback response_text
  end.

(** ** Wall-clock time: [datetime.now().isoformat()] *)

Record datetime := Datetime {
  year : N; month : N; day : N;
  hour : N; minute : N; second : N; microsecond : N
}.

(** [n] in decimal on [w] digits, zero padded. *)
Fixpoint dec (w : nat) (n : N) : str :=
  match w with
  | O => []
  | S w' => dec w' (n / 10) ++ [(48 + n mod 10)%N]
  end.

(** [d.isoformat()] of a naive [datetime]: the fraction is printed only
    when the microseconds are not zero. *)
Definition isoformat (d : datetime) : str :=
  dec 4 (year d) ++ py "-" ++ dec 2 (month d) ++ py "-" ++ dec 2 (day d)
  ++ py "T" ++ dec 2 (hour d) ++ py ":" ++ dec 2 (minute d) ++ py ":"
  ++ dec 2 (second d)
  ++ (if (microsecond d =? 0)%N then [] else py "." ++ dec 6 (microsecond d)).

(** ** Prompts *)

Definition emotions : list str :=
  [ py "joy"; py "sadness"; py "anger"; py "fear"; py "surprise";
    py "disgust"; py "neutral"; py "love"; py "excitement"; py "anxiety" ].

(** [sep.join(l)]. *)
Fixpoint join (sep : str) (l : list str) : str :=
  match l with
  | [] => []
  | [x] => x
  | x :: l' => x ++ sep ++ join sep l'
  end.

Definition text_prompt_head : str :=
  py "
            Analyze the emotional content of the following text. 
            Identify the primary emotion and provide:
            1. Primary emotion (from: ".

Definition text_prompt_mid : str :=
  py ")
            2. Confidence score (0-100)
            3. Secondary emotions if present
            4. Emotional intensity (low, medium, high)
            5. Brief explanation
            
            Text: ".

Definition text_prompt_tail : str :=
  py "
            
            Respond in JSON format.
            ".

Definition image_prompt : str :=
  py "
            Analyze the emotional content in this image. Look for:
            1. Facial expressions
            2. Body language
            3. Environmental context
            
            Provide:
            1. Primary emotion detected
            2. Confidence score (0-100)
            3. Additional emotions if present
            4. Visual cues that led to this analysis
            5. Emotional intensity
            
            Respond in JSON format.
            ".

Definition multimodal_prompt_head : str :=
  py "
            Analyze the emotional content from both the text and the image provided.
            Consider how the text and visual information complement or contrast each other.
            
            Text: ".

Definition multimodal_prompt_tail : str :=
  py "
            
            Provide:
            1. Overall primary emotion
            2. Confidence score (0-100)
            3. Text-based emotion
            4. Image-based emotion
            5. Consistency analysis (aligned/misaligned)
            6. Combined emotional interpretation
            7. Intensity assessment
            
            Respond in JSON format.
            ".

(** ** State and exceptions

    A computation reads and changes a state and ends with a value or an
    exception. *)

Definition M (S A : Type) : Type := S -> Result A * S.

Definition ret {S A} (a : A) : M S A := fun w => (Ok a, w).

Definition bind {S A B} (m : M S A) (k : A -> M S B) : M S B :=
  fun w => match m w with
           | (Ok a, w') => k a w'
           | (Raise e, w') => (Raise e, w')
           end.

Definition lift {S A} (r : Result A) : M S A := fun w => (r, w).

(** [try: body / except Exception as e: handler(e)].  The effects of the
    body up to the exception stay. *)
Definition try_except {S A} (body : M S A) (handler : exn -> M S A) : M S A :=
  fun w => match body w with
           | (Ok a, w') => (Ok a, w')
           | (Raise e, w') => handler e w'
           end.

Notation "x <- c ;; k" := (bind c (fun x => k))
  (at level 100, c at next level, right associativity).
Notation "c ;;; k" := (bind c (fun _ => k))
  (at level 100, right associativity).

(** ** The world of the program *)

Inductive level := INFO | ERROR.

(** The reply of the model; reading [response.text] can raise. *)
Module Response.
Record t := { text : Result str }.
End Response.

Section World.

Variable Part : Type.

(** The argument of [generate_content]: a prompt, or a prompt and an
    image part. *)
Inductive content :=
| CPrompt (prompt : str)
| CParts (prompt : str) (image_part : Part).

(** The state the program acts on: the wall clock, the calls made to the
    model so far (oldest first) and the log. *)
Record World := mkWorld {
  now : datetime;
  upstream_requests : list content;
  log : list (level * str)
}.

End World.

Arguments CPrompt {Part} prompt.
Arguments mkWorld {Part} now upstream_requests log.

(** A value that is no container and no [bytes]; an integer has at most
    4300 digits, the most that CPython turns into text by default. *)
Definition is_scalar (v : pyobj) : bool :=
  match v with
  | PNone | PBool _ | PFloat _ | PStr _ => true
  | PInt z => (Z.abs z <? 10 ^ 4300)%Z
  | PBytes _ | PList _ | PDict _ => false
  end.

(** A mapping all of whose values are scalars. *)
Definition plain (v : pyobj) : bool :=
  match v with
  | PDict d => forallb (fun kv => is_scalar (snd kv)) d
  | _ => false
  end.

(** What lies outside the repository: the Vertex AI SDK ([Part.from_uri],
    [Part.from_data], [GenerativeModel.generate_content]),
    [base64.b64decode], the rendering of an object that is not a [str]
    inside an f-string, and Flask's [jsonify].  [generate_content] tells
    what a call answers in a given world and the time on the wall clock
    when it comes back.  [jsonify_error] tells what [jsonify] raises on
    an object ([RecursionError] on one nested too deep, say), [None] when
    it serializes it; a mapping of scalars is always serialized. *)
Record Platform := {
  Part : Type;
  Part_from_uri : pyobj -> str -> Result Part;
  Part_from_data : pyobj -> str -> Result Part;
  b64decode : str -> Result pyobj;
  str_of_object : pyobj -> str;
  generate_content : World Part -> content Part -> Result Response.t * datetime;
  jsonify_error : pyobj -> option exn;
  jsonify_plain : forall v, plain v = true -> jsonify_error v = None
}.

(** ** The decoder and the routes *)

Section Decoder.

Variable P : Platform.

Notation "'world'" := (World (Part P)) (only parsing).

Definition datetime_now : M world datetime := fun w => (Ok (now w), w).

Definition logger (l : level) (msg : str) : M world unit :=
  fun w => (Ok tt, mkWorld (now w) (upstream_requests w) (log w ++ [(l, msg)])).

Definition model_generate_content (c : content (Part P)) : M world Response.t :=
  fun w => let (r, t) := generate_content P w c in
           (r, mkWorld t (upstream_requests w ++ [c]) (log w)).

(** An object inside an f-string. *)
Definition format_value (v : pyobj) : str :=
  match v with
  | PStr s => s
  | _ => str_of_object P v
  end.

(** [EmotionDecoder._error_response]. *)
Definition _error_response (error_msg : str) : M world pyobj :=
  t <- datetime_now ;;
  ret (PDict [ (py "error", PBool true);
               (py "message", PStr error_msg);
               (py "primary_emotion", PStr (py "error"));
               (py "confidence", PInt 0);
               (py "timestamp", PStr (isoformat t)) ]).

Definition text_prompt (text : pyobj) : str :=
  text_prompt_head ++ join (py ", ") emotions ++ text_prompt_mid
  ++ [dquote] ++ format_value text ++ [dquote] ++ text_prompt_tail.

Definition multimodal_prompt (text : pyobj) : str :=
  multimodal_prompt_head ++ [dquote] ++ format_value text ++ [dquote]
  ++ multimodal_prompt_tail.

(** "Prepare image part": the URI when it is truthy, the inline data
    otherwise, base64-decoded when it is a [str]. *)
Definition prepare_image_part (image_data image_uri : pyobj) : Result (Part P) :=
  if truthy image_uri then Part_from_uri P image_uri (py "image/jpeg")
  else
    rbind (match image_data with
           | PStr s => b64decode P s
           | _ => Ok image_data
           end)
          (fun image_bytes => Part_from_data P image_bytes (py "image/jpeg")).

(** [EmotionDecoder.analyze_text_emotion]: the [try] block, then the
    method with its [except] branch. *)
Definition analyze_text_emotion_try (text : pyobj) : M world pyobj :=
  let prompt := text_prompt text in
  response <- model_generate_content (CPrompt prompt) ;;
  response_text <- lift (Response.text response) ;;
  let result := _parse_emotion_response response_text in
  result <- lift (setitem result (py "input_type") (PStr (py "text"))) ;;
  t <- datetime_now ;;
  result <- lift (setitem result (py "timestamp") (PStr (isoformat t))) ;;
  emotion <- lift (get_method result (py "primary_emotion") (PStr (py "unknown"))) ;;
  logger INFO (py "Text emotion analyzed: " ++ format_value emotion) ;;;
  ret result.

Definition analyze_text_emotion (text : pyobj) : M world pyobj :=
  try_except (analyze_text_emotion_try text)
    (fun e =>
       logger ERROR (py "Error analyzing text emotion: " ++ exn_msg e) ;;;
       _error_response (exn_msg e)).

(** [EmotionDecoder.analyze_image_emotion]. *)
Definition analyze_image_emotion_try (image_data image_uri : pyobj)
  : M world pyobj :=
  let prompt := image_prompt in
  image_part <- lift (prepare_image_part image_data image_uri) ;;
  response <- model_generate_content (CParts prompt image_part) ;;
  response_text <- lift (Response.text response) ;;
  let result := _parse_emotion_response response_text in
  result <- lift (setitem result (py "input_type") (PStr (py "image"))) ;;
  t <- datetime_now ;;
  result <- lift (setitem result (py "timestamp") (PStr (isoformat t))) ;;
  emotion <- lift (get_method result (py "primary_emotion") (PStr (py "unknown"))) ;;
  logger INFO (py "Image emotion analyzed: " ++ format_value emotion) ;;;
  ret result.

Definition analyze_image_emotion (image_data image_uri : pyobj) : M world pyobj :=
  try_except (analyze_image_emotion_try image_data image_uri)
    (fun e =>
       logger ERROR (py "Error analyzing image emotion: " ++ exn_msg e) ;;;
       _error_response (exn_msg e)).

(** [EmotionDecoder.analyze_multimodal_emotion]. *)
Definition analyze_multimodal_emotion_try (text image_data image_uri : pyobj)
  : M world pyobj :=
  let prompt := multimodal_prompt text in
  image_part <- lift (prepare_image_part image_data image_uri) ;;
  response <- model_generate_content (CParts prompt image_part) ;;
  response_text <- lift (Response.text response) ;;
  let result := _parse_emotion_response response_text in
  result <- lift (setitem result (py "input_type") (PStr (py "multimodal"))) ;;
  t <- datetime_now ;;
  result <- lift (setitem result (py "timestamp") (PStr (isoformat t))) ;;
  emotion <- lift (get_method result (py "primary_emotion") (PStr (py "unknown"))) ;;
  logger INFO (py "Multimodal emotion analyzed: " ++ format_value emotion) ;;;
  ret result.

Definition analyze_multimodal_emotion (text image_data image_uri : pyobj)
  : M world pyobj :=
  try_except (analyze_multimodal_emotion_try text image_data image_uri)
    (fun e =>
       logger ERROR (py "Error analyzing multimodal emotion: " ++ exn_msg e) ;;;
       _error_response (exn_msg e)).

(** *** Routes

    A request is the outcome of [request.get_json()]; a reply is a status
    and the object [jsonify] has serialized. *)

Record HttpResponse := { status : nat; body : pyobj }.

Definition error_body (msg : str) : pyobj := PDict [ (py "error", PStr msg) ].

(** [jsonify(obj)]: the object as the body of a response, unless it
    cannot be serialized. *)
Definition jsonify (obj : pyobj) : M world pyobj :=
  lift (match jsonify_error P obj with
        | Some e => Raise e
        | None => Ok obj
        end).

(** [POST /api/analyze/text]. *)
Definition analyze_text (get_json : Result pyobj) : M world HttpResponse :=
  try_except
    (data <- lift get_json ;;
     text <- lift (get_method data (py "text") (PStr [])) ;;
     if negb (truthy text) then
       body <- jsonify (error_body (py "Text is required")) ;;
       ret {| status := 400; body := body |}
     else
       result <- analyze_text_emotion text ;;
       body <- jsonify result ;;
       ret {| status := 200; body := body |})
    (fun e =>
       logger ERROR (py "Error in analyze_text endpoint: " ++ exn_msg e) ;;;
       body <- jsonify (error_body (exn_msg e)) ;;
       ret {| status := 500; body := body |}).

(** [POST /api/analyze/image]. *)
Definition analyze_image (get_json : Result pyobj) : M world HttpResponse :=
  try_except
    (data <- lift get_json ;;
     image_data <- lift (get_method data (py "image") PNone) ;;
     image_uri <- lift (get_method data (py "image_uri") PNone) ;;
     if negb (truthy image_data) && negb (truthy image_uri) then
       body <- jsonify (error_body (py "Image data or URI is required")) ;;
       ret {| status := 400; body := body |}
     else
       result <- analyze_image_emotion image_data image_uri ;;
       body <- jsonify result ;;
       ret {| status := 200; body := body |})
    (fun e =>
       logger ERROR (py "Error in analyze_image endpoint: " ++ exn_msg e) ;;;
       body <- jsonify (error_body (exn_msg e)) ;;
       ret {| status := 500; body := body |}).

(** [POST /api/analyze/multimodal]. *)
Definition analyze_multimodal (get_json : Result pyobj) : M world HttpResponse :=
  try_except
    (data <- lift get_json ;;
     text <- lift (get_method data (py "text") (PStr [])) ;;
     image_data <- lift (get_method data (py "image") PNone) ;;
     image_uri <- lift (get_method data (py "image_uri") PNone) ;;
     if negb (truthy text) then
       body <- jsonify (error_body (py "Text is required")) ;;
       ret {| status := 400; body := body |}
     else if negb (truthy image_data) && negb (truthy image_uri) then
       body <- jsonify (error_body (py "Image data or URI is required")) ;;
       ret {| status := 400; body := body |}
     else
       result <- analyze_multimodal_emotion text image_data image_uri ;;
       body <- jsonify result ;;
       ret {| status := 200; body := body |})
    (fun e =>
       logger ERROR (py "Error in analyze_multimodal endpoint: " ++ exn_msg e) ;;;
       body <- jsonify (error_body (exn_msg e)) ;;
       ret {| status := 500; body := body |}).

End Decoder.

(** ** The specification's words

    The candidates as the specification describes them, to compare with
    [json_str], and the shape it promises for result records. *)

(** The text after the first occurrence of [marker]. *)
Definition after_marker (marker s : str) : option str :=
  match find marker s with
  | Some i => Some (skipn (i + List.length marker) s)
  | None => None
  end.

(** The text before the first occurrence of [marker]; all of it when
    there is none. *)
Definition up_to (marker s : str) : str :=
  match find marker s with
  | Some p => firstn p s
  | None => s
  end.

(** "The substring between that marker and the next closing fence." *)
Definition between_json_marker_and_fence (raw_text : str) : option str :=
  option_map (up_to fence) (after_marker fence_json raw_text).

(** "The substring between the first pair of fence markers." *)
Definition between_first_pair (raw_text : str) : option str :=
  option_map (up_to fence) (after_marker fence raw_text).

(** The closing fence runs into another JSON marker: the text at the
    fence reads four or five backticks and then [json]. *)
Definition fence_overlapped (rest : str) : bool :=
  match find fence rest with
  | Some p =>
      starts_with (py "````json") (skipn p rest)
      || starts_with (py "`````json") (skipn p rest)
  | None => false
  end.

(** An object, or a list holding one somewhere. *)
Fixpoint has_object (v : pyobj) : bool :=
  match v with
  | PDict _ => true
  | PList l => existsb has_object l
  | _ => false
  end.

(** "A flat key-value mapping containing no nested objects." *)
Definition flat (v : pyobj) : bool :=
  match v with
  | PDict d => forallb (fun kv => negb (has_object (snd kv))) d
  | _ => false
  end.

Definition is_dict (v : pyobj) : bool :=
  match v with PDict _ => true | _ => false end.

(** [k in v] for a record. *)
Definition has_key (v : pyobj) (k : str) : bool :=
  match v with
  | PDict d => match dict_get d k with Some _ => true | None => false end
  | _ => false
  end.

(** [v.get(k)] on a record, [None] elsewhere. *)
Definition record_get (v : pyobj) (k : str) : option pyobj :=
  match v with
  | PDict d => dict_get d k
  | _ => None
  end.

(** The error record of the specification:
    [{error: true, message, primary_emotion: "error", confidence: 0,
    timestamp}]. *)
Definition error_record (message : str) (t : datetime) : pyobj :=
  PDict [ (py "error", PBool true);
          (py "message", PStr message);
          (py "primary_emotion", PStr (py "error"));
          (py "confidence", PInt 0);
          (py "timestamp", PStr (isoformat t)) ].

(** A record with [input_type] and [timestamp] added. *)
Definition stamp (input_type : str) (t : datetime) (d : dict) : pyobj :=
  PDict (dict_set (dict_set d (py "input_type") (PStr input_type))
                  (py "timestamp") (PStr (isoformat t))).

(** A handler catches what its [try] block raises: it always returns a
    record, and the error record of the failure when the block raises. *)
Definition catches (Part : Type) (block handler : M (World Part) pyobj)
    (w : World Part) : Prop :=
  (exists r w', handler w = (Ok r, w'))
  /\ forall e w1, block w = (Raise e, w1) ->
                  fst (handler w) = Ok (error_record (exn_msg e) (now w1)).

(** ** The shape the handlers share

    The three [try] blocks end with the same lines, up to the name of
    the mode, and the three [except] branches differ by that name only.
    Both are named here, to reason about the handlers at once. *)

Section Shared.

Variable P : Platform.

Notation "'world'" := (World (Part P)) (only parsing).

(** The lines every handler runs on the reply: extract, stamp, log. *)
Definition finish (input_type : str) (what : str) (response : Response.t)
  : M world pyobj :=
  response_text <- lift (Response.text response) ;;
  let result := _parse_emotion_response response_text in
  result <- lift (setitem result (py "input_type") (PStr input_type)) ;;
  t <- datetime_now P ;;
  result <- lift (setitem result (py "timestamp") (PStr (isoformat t))) ;;
  emotion <- lift (get_method result (py "primary_emotion") (PStr (py "unknown"))) ;;
  logger P INFO (what ++ py " emotion analyzed: " ++ format_value P emotion) ;;;
  ret result.

(** The [except Exception as e] branch of a handler. *)
Definition on_error (what : str) (e : exn) : M world pyobj :=
  logger P ERROR (py "Error analyzing " ++ what ++ py " emotion: " ++ exn_msg e) ;;;
  _error_response P (exn_msg e).

End Shared.

(** ** A scripted platform

    A platform whose model gives one scripted answer at a scripted time,
    to run the program on concrete inputs.  Its parts record what they
    were built from; base-64 decoding is not carried out; [jsonify]
    serializes every object. *)

Definition scripted (reply : Result Response.t) (t : datetime) : Platform :=
  {| Part := (bool * pyobj * str)%type;
     Part_from_uri := fun uri mime => Ok (true, uri, mime);
     Part_from_data := fun data mime => Ok (false, data, mime);
     b64decode := fun s => Ok (PBytes s);
     str_of_object := fun _ => py "<object>";
     generate_content := fun _ _ => (reply, t);
     jsonify_error := fun _ => None;
     jsonify_plain := fun _ _ => eq_refl |}.

Definition says (reply : str) : Result Response.t := Ok {| Response.text := Ok reply |}.

Definition midnight : datetime := Datetime 2024 1 1 0 0 0 0.
Definition noon : datetime := Datetime 2024 1 1 12 0 0 250000.

Definition world0 (Part : Type) : World Part := mkWorld midnight [] [].

(** ** Sample inputs *)

(** The reply of the specification's first example. *)
Definition fenced_joy : str :=
  pyq "Here: ```json
{'primary_emotion':'joy','confidence':90}
```".

(** The reply of the specification's second example. *)
Definition plain_prose : str := py "I think it's happy".

(** A closing fence of four backticks, followed by [json]. *)
Definition overlapping_reply : str := py "```json{}````json".

(** A form feed, then an empty object. *)
Definition form_feed_reply : str := 12%N :: py "{}".

(** A failure of the model. *)
Definition unavailable : exn :=
  Exn (OtherError (py "ServiceUnavailable")) (py "503 upstream unavailable").

(** The reply to a rejected request. *)
Definition bad_request (msg : str) : HttpResponse :=
  {| status := 400; body := error_body msg |}.

(** A reply whose object holds an object. *)
Definition nested_reply : str := pyq "{'a':{'b':1}}".

(** A reference to an image in a bucket. *)
Definition gs_uri : pyobj := PStr (py "gs://emotion-chatbot-assets/face.jpg").

(** ** The health probe *)

Section Probe.

Variable P : Platform.

(** [GET /api/health]. *)
Definition health_check : M (World (Part P)) HttpResponse :=
  t <- datetime_now P ;;
  body <- jsonify P
            (PDict [ (py "status", PStr (py "healthy"));
                     (py "service", PStr (py "GCP Emotion Decoding Chatbot"));
                     (py "version", PStr (py "1.0.0"));
                     (py "timestamp", PStr (isoformat t)) ]) ;;
  ret {| status := 200; body := body |}.

End Probe.

(** ** Further notions for the properties *)

(** A text without a backtick. *)
Definition no_backtick (s : str) : bool :=
  forallb (fun c => negb (c =? 96)%N) s.

(** The field [k] of a [dict] body as a route reads it with
    [data.get(k, default)]. *)
Definition field (d : dict) (k : str) (default : pyobj) : pyobj :=
  match dict_get d k with
  | Some v => v
  | None => default
  end.

(** The record [r] is the mapping [d] with the handler's own
    [input_type] and [timestamp], every other key as it was. *)
Definition stamped_over (mode : str) (t : datetime) (d : dict) (r : pyobj) : Prop :=
  record_get r (py "input_type") = Some (PStr mode)
  /\ record_get r (py "timestamp") = Some (PStr (isoformat t))
  /\ forall k, str_eqb (py "input_type") k = false ->
               str_eqb (py "timestamp") k = false ->
               record_get r k = dict_get d k.

(** The model answered [reply], at time [t], to the call [c] made in
    world [w]. *)
Definition model_said (P : Platform) (w : World (Part P))
    (c : content (Part P)) (reply : str) (t : datetime) : Prop :=
  exists response,
    generate_content P w c = (Ok response, t) /\ Response.text response = Ok reply.

(** What a result record [r] of a handler of mode [mode] is, [call]
    being the call the handler makes to the model when it gets that far.
    It is a mapping: either the error record, which is flat, or the
    object [d] decoded from the reply to that very call (the fallback
    record when decoding fails) with the handler's [input_type] and
    [timestamp] and every other key unchanged.  It is then flat when
    [d] was flat, the fallback record included, and holds a nested
    object only when [d] held one. *)
Definition passes_through (P : Platform) (w : World (Part P))
    (call : option (content (Part P))) (mode : str) (r : pyobj) : Prop :=
  is_dict r = true
  /\ ((exists msg t, r = error_record msg t /\ flat r = true)
      \/ (exists c reply t d,
             call = Some c
             /\ model_said P w c reply t
             /\ _parse_emotion_response reply = PDict d
             /\ r = stamp mode t d
             /\ stamped_over mode t d r
             /\ (flat (PDict d) = true -> flat r = true)
             /\ (PDict d = fallback reply -> flat r = true)
             /\ (flat r = false -> flat (PDict d) = false))).

(** The message of [obj.get] on an object that has no such method. *)
Definition no_get_message (obj : pyobj) : str :=
  py "'" ++ type_name obj ++ py "' object has no attribute 'get'".

(** Why a route cannot use a body: it could not be read, or it is not
    an object and has no [get].  [None] for an object. *)
Definition body_failure (get_json : Result pyobj) : option str :=
  match get_json with
  | Raise e => Some (exn_msg e)
  | Ok (PDict _) => None
  | Ok data => Some (no_get_message data)
  end.

(** A route answers: it returns a response, with one of the three
    statuses the routes use. *)
Definition answers (Part : Type) (route : M (World Part) HttpResponse)
    (w : World Part) : Prop :=
  exists resp w',
    route w = (Ok resp, w')
    /\ (status resp = 200 \/ status resp = 400 \/ status resp = 500).

(** The world after a route has caught [msg] in its [except] branch. *)
Definition logged_error (Part : Type) (name msg : str) (w : World Part) : World Part :=
  mkWorld (now w) (upstream_requests w)
    (log w ++ [(ERROR, py "Error in " ++ name ++ py " endpoint: " ++ msg)]).

(** What a route makes of the record its handler returned: 200 with the
    record when [jsonify] serializes it, and 500 with the text of the
    failure, caught by the route's own [except] branch, when it does
    not. *)
Definition respond (P : Platform) (name : str) (r : pyobj) (w : World (Part P))
  : Result HttpResponse * World (Part P) :=
  match jsonify_error P r with
  | None => (Ok {| status := 200; body := r |}, w)
  | Some e =>
      (Ok {| status := 500; body := error_body (exn_msg e) |},
       logged_error name (exn_msg e) w)
  end.

Definition is_str (v : pyobj) : bool :=
  match v with PStr _ => true | _ => false end.

(** The failure of [jsonify] on an object nested too deep. *)
Definition recursion_error : exn :=
  Exn (OtherError (py "RecursionError"))
      (py "maximum recursion depth exceeded while encoding a JSON object").

(** What a serializer that takes mappings of scalars only raises. *)
Definition brittle_error (v : pyobj) : option exn :=
  if plain v then None else Some recursion_error.

Definition brittle_error_plain (v : pyobj) (H : plain v = true)
  : brittle_error v = None :=
  @eq_ind_r bool true
    (fun b : bool => (if b then None else Some recursion_error) = None)
    eq_refl (plain v) H.

(** A scripted platform whose [jsonify] serializes mappings of scalars
    and nothing else. *)
Definition brittle (reply : Result Response.t) (t : datetime) : Platform :=
  {| Part := (bool * pyobj * str)%type;
     Part_from_uri := fun uri mime => Ok (true, uri, mime);
     Part_from_data := fun data mime => Ok (false, data, mime);
     b64decode := fun s => Ok (PBytes s);
     str_of_object := fun _ => py "<object>";
     generate_content := fun _ _ => (reply, t);
     jsonify_error := brittle_error;
     jsonify_plain := brittle_error_plain |}.

(** The failure of [base64.b64decode] on a text that is not base 64. *)
Definition bad_padding : exn :=
  Exn (OtherError (py "binascii.Error")) (py "Incorrect padding").

(** A scripted platform whose [b64decode] rejects every text. *)
Definition undecodable (reply : Result Response.t) (t : datetime) : Platform :=
  {| Part := (bool * pyobj * str)%type;
     Part_from_uri := fun uri mime => Ok (true, uri, mime);
     Part_from_data := fun data mime => Ok (false, data, mime);
     b64decode := fun _ => Raise bad_padding;
     str_of_object := fun _ => py "<object>";
     generate_content := fun _ _ => (reply, t);
     jsonify_error := fun _ => None;
     jsonify_plain := fun _ _ => eq_refl |}.

(** A generic block, then a JSON block. *)
Definition two_blocks : str := pyq "```
{'first':1}
``` then ```json {'second':2} ```".

(** A reply that names a mode and a time of its own. *)
Definition spoofing_reply : str :=
  pyq "{'input_type':'image','timestamp':'1999','primary_emotion':'joy'}".

(** ** The API tester: [scripts/test_api.py]

    The tester calls the service over HTTP, prints what it sees and
    keeps one result per test: [True], [False], or [None] for a test it
    skipped.  The network, the file system, [json.dumps] and
    [base64.b64encode] are parameters; what is printed is kept line by
    line. *)

(** [str(n)] for a natural number. *)
Fixpoint uint_str (d : Decimal.uint) : str :=
  match d with
  | Decimal.Nil => []
  | Decimal.D0 d' => 48%N :: uint_str d'
  | Decimal.D1 d' => 49%N :: uint_str d'
  | Decimal.D2 d' => 50%N :: uint_str d'
  | Decimal.D3 d' => 51%N :: uint_str d'
  | Decimal.D4 d' => 52%N :: uint_str d'
  | Decimal.D5 d' => 53%N :: uint_str d'
  | Decimal.D6 d' => 54%N :: uint_str d'
  | Decimal.D7 d' => 55%N :: uint_str d'
  | Decimal.D8 d' => 56%N :: uint_str d'
  | Decimal.D9 d' => 57%N :: uint_str d'
  end.

Definition str_of_nat (n : nat) : str := uint_str (Nat.to_uint n).

(** [s.rstrip(chars)]: drop the trailing code points that are in
    [chars]. *)
Fixpoint lstrip_chars (chars s : str) : str :=
  match s with
  | [] => []
  | c :: s' => if existsb (N.eqb c) chars then lstrip_chars chars s' else s
  end.

Definition rstrip_chars (chars s : str) : str :=
  rev (lstrip_chars chars (rev s)).

Module Tester.

(** A reply of the service as [requests] shows it; [response.json()]
    can raise. *)
Record reply := {
  status_code : nat;
  json : Result pyobj;
  text : str
}.

Inductive request :=
| GET (url : str) (timeout : nat)
| POST (url : str) (payload : pyobj) (timeout : nat).

(** What the tester runs against.  [requests] answers a request given
    the requests sent before it; [read_bytes] is [open(path,'rb').read()];
    [dumps] is [json.dumps(obj, indent=2)]; [b64encode] is
    [base64.b64encode(data).decode('utf-8')]. *)
Record Client := {
  requests : list request -> request -> Result reply;
  dumps : pyobj -> str;
  path_exists : str -> bool;
  read_bytes : str -> Result (list N);
  b64encode : list N -> str;
  clock : datetime
}.

(** The tester object ([base_url], [results]) and the world it acts
    on: the lines printed and the requests sent, oldest first. *)
Record state := mkState {
  base_url : str;
  results : list (str * option bool);
  console : list str;
  sent : list request
}.

(** The ANSI colour codes. *)
Definition CLASS : list (str * str) :=
  [ (py "GREEN", 27%N :: py "[92m");
    (py "RED", 27%N :: py "[91m");
    (py "YELLOW", 27%N :: py "[93m");
    (py "BLUE", 27%N :: py "[94m");
    (py "END", 27%N :: py "[0m") ].

Fixpoint class_get (l : list (str * str)) (k : str) (default : str) : str :=
  match l with
  | [] => default
  | (k', v) :: l' => if str_eqb k' k then v else class_get l' k default
  end.

Definition print (line : str) : M state unit :=
  fun st => (Ok tt, mkState (base_url st) (results st) (console st ++ [line]) (sent st)).

(** [APITester.log]. *)
Definition log (message : str) (color : str) : M state unit :=
  print (class_get CLASS color (class_get CLASS (py "END") [])
         ++ message ++ class_get CLASS (py "END") []).

(** [self.results.append(entry)]. *)
Definition results_append (entry : str * option bool) : M state unit :=
  fun st => (Ok tt, mkState (base_url st) (results st ++ [entry]) (console st) (sent st)).

Definition self_base_url : M state str := fun st => (Ok (base_url st), st).

Definition rule : str := repeat 61%N 60.

Definition check : str := [10003%N].
Definition cross : str := [10007%N].
Definition circle : str := [9675%N].

Section Methods.

Variable C : Client.

(** [requests.get] and [requests.post]: the request is sent, then
    answered or failed. *)
Definition send (r : request) : M state reply :=
  fun st => (requests C (sent st) r,
             mkState (base_url st) (results st) (console st) (sent st ++ [r])).

(** [APITester.__init__]. *)
Definition init (url : str) : M state unit :=
  fun st => (Ok tt, mkState (rstrip_chars (py "/") url) [] (console st) (sent st)).

(** [APITester.test_health_check]. *)
Definition test_health_check : M state bool :=
  log (10%N :: rule) (py "BLUE") ;;;
  log (py "Testing Health Check Endpoint") (py "BLUE") ;;;
  log rule (py "BLUE") ;;;
  try_except
    (base <- self_base_url ;;
     let url := base ++ py "/api/health" in
     log (py "GET " ++ url) (py "YELLOW") ;;;
     response <- send (GET url 10) ;;
     if status_code response =? 200 then
       data <- lift (json response) ;;
       log (check ++ py " Health check passed") (py "GREEN") ;;;
       log (py "Response: " ++ dumps C data) (py "END") ;;;
       results_append (py "Health Check", Some true) ;;;
       ret true
     else
       log (cross ++ py " Health check failed with status "
            ++ str_of_nat (status_code response)) (py "RED") ;;;
       results_append (py "Health Check", Some false) ;;;
       ret false)
    (fun e =>
       log (cross ++ py " Error: " ++ exn_msg e) (py "RED") ;;;
       results_append (py "Health Check", Some false) ;;;
       ret false).

(** [APITester.test_text_analysis]. *)
Definition test_text_analysis (text_arg : str) : M state bool :=
  log (10%N :: rule) (py "BLUE") ;;;
  log (py "Testing Text Analysis Endpoint") (py "BLUE") ;;;
  log rule (py "BLUE") ;;;
  try_except
    (base <- self_base_url ;;
     let url := base ++ py "/api/analyze/text" in
     let payload := PDict [ (py "text", PStr text_arg) ] in
     log (py "POST " ++ url) (py "YELLOW") ;;;
     log (py "Payload: " ++ dumps C payload) (py "END") ;;;
     response <- send (POST url payload 30) ;;
     if status_code response =? 200 then
       data <- lift (json response) ;;
       log (check ++ py " Text analysis successful") (py "GREEN") ;;;
       log (py "Response: " ++ dumps C data) (py "END") ;;;
       results_append (py "Text Analysis", Some true) ;;;
       ret true
     else
       log (cross ++ py " Text analysis failed with status "
            ++ str_of_nat (status_code response)) (py "RED") ;;;
       log (py "Response: " ++ text response) (py "END") ;;;
       results_append (py "Text Analysis", Some false) ;;;
       ret false)
    (fun e =>
       log (cross ++ py " Error: " ++ exn_msg e) (py "RED") ;;;
       results_append (py "Text Analysis", Some false) ;;;
       ret false).

(** [image_path and os.path.exists(image_path)]. *)
Definition usable (image_path : option str) : bool :=
  match image_path with
  | Some (c :: p) => path_exists C (c :: p)
  | _ => false
  end.

(** [APITester.test_image_analysis]. *)
Definition test_image_analysis (image_path : option str) : M state bool :=
  log (10%N :: rule) (py "BLUE") ;;;
  log (py "Testing Image Analysis Endpoint") (py "BLUE") ;;;
  log rule (py "BLUE") ;;;
  try_except
    (base <- self_base_url ;;
     let url := base ++ py "/api/analyze/image" in
     match image_path with
     | Some (c :: p) =>
         if path_exists C (c :: p) then
           bytes <- lift (read_bytes C (c :: p)) ;;
           let image_data := b64encode C bytes in
           let payload := PDict [ (py "image", PStr image_data) ] in
           log (py "Using image: " ++ (c :: p)) (py "END") ;;;
           log (py "POST " ++ url) (py "YELLOW") ;;;
           response <- send (POST url payload 60) ;;
           if status_code response =? 200 then
             data <- lift (json response) ;;
             log (check ++ py " Image analysis successful") (py "GREEN") ;;;
             log (py "Response: " ++ dumps C data) (py "END") ;;;
             results_append (py "Image Analysis", Some true) ;;;
             ret true
           else
             log (cross ++ py " Image analysis failed with status "
                  ++ str_of_nat (status_code response)) (py "RED") ;;;
             log (py "Response: " ++ text response) (py "END") ;;;
             results_append (py "Image Analysis", Some false) ;;;
             ret false
         else
           log (py "No valid image provided, skipping image test") (py "YELLOW") ;;;
           results_append (py "Image Analysis", None) ;;;
           ret true
     | _ =>
         log (py "No valid image provided, skipping image test") (py "YELLOW") ;;;
         results_append (py "Image Analysis", None) ;;;
         ret true
     end)
    (fun e =>
       log (cross ++ py " Error: " ++ exn_msg e) (py "RED") ;;;
       results_append (py "Image Analysis", Some false) ;;;
       ret false).

(** [APITester.test_multimodal_analysis]. *)
Definition test_multimodal_analysis (text_arg : str) (image_path : option str)
  : M state bool :=
  log (10%N :: rule) (py "BLUE") ;;;
  log (py "Testing Multimodal Analysis Endpoint") (py "BLUE") ;;;
  log rule (py "BLUE") ;;;
  try_except
    (base <- self_base_url ;;
     let url := base ++ py "/api/analyze/multimodal" in
     match image_path with
     | Some (c :: p) =>
         if path_exists C (c :: p) then
           bytes <- lift (read_bytes C (c :: p)) ;;
           let image_data := b64encode C bytes in
           let payload := PDict [ (py "text", PStr text_arg);
                                  (py "image", PStr image_data) ] in
           log (py "Using image: " ++ (c :: p)) (py "END") ;;;
           log (py "POST " ++ url) (py "YELLOW") ;;;
           log (py "Text: " ++ text_arg) (py "END") ;;;
           response <- send (POST url payload 60) ;;
           if status_code response =? 200 then
             data <- lift (json response) ;;
             log (check ++ py " Multimodal analysis successful") (py "GREEN") ;;;
             log (py "Response: " ++ dumps C data) (py "END") ;;;
             results_append (py "Multimodal Analysis", Some true) ;;;
             ret true
           else
             log (cross ++ py " Multimodal analysis failed with status "
                  ++ str_of_nat (status_code response)) (py "RED") ;;;
             log (py "Response: " ++ text response) (py "END") ;;;
             results_append (py "Multimodal Analysis", Some false) ;;;
             ret false
         else
           log (py "No valid image provided, skipping multimodal test")
               (py "YELLOW") ;;;
           results_append (py "Multimodal Analysis", None) ;;;
           ret true
     | _ =>
         log (py "No valid image provided, skipping multimodal test")
             (py "YELLOW") ;;;
         results_append (py "Multimodal Analysis", None) ;;;
         ret true
     end)
    (fun e =>
       log (cross ++ py " Error: " ++ exn_msg e) (py "RED") ;;;
       results_append (py "Multimodal Analysis", Some false) ;;;
       ret false).

(** [sum(1 for _, result in self.results if result is v)]. *)
Definition count (v : option bool) (l : list (str * option bool)) : nat :=
  List.length
    (filter (fun entry =>
               match snd entry, v with
               | Some a, Some b => Bool.eqb a b
               | None, None => true
               | _, _ => false
               end) l).

(** The line of the summary for one result. *)
Definition detail (entry : str * option bool) : M state unit :=
  match snd entry with
  | Some true => log (py "  " ++ check ++ py " " ++ fst entry) (py "GREEN")
  | Some false => log (py "  " ++ cross ++ py " " ++ fst entry) (py "RED")
  | None =>
      log (py "  " ++ circle ++ py " " ++ fst entry ++ py " (skipped)") (py "YELLOW")
  end.

Fixpoint for_each (l : list (str * option bool)) : M state unit :=
  match l with
  | [] => ret tt
  | entry :: l' => detail entry ;;; for_each l'
  end.

(** [APITester.print_summary]: the value returned is the exit code. *)
Definition print_summary : M state nat :=
  log (10%N :: rule) (py "BLUE") ;;;
  log (py "TEST SUMMARY") (py "BLUE") ;;;
  log rule (py "BLUE") ;;;
  st <- (fun st => (Ok st, st)) ;;
  let passed := count (Some true) (results st) in
  let failed := count (Some false) (results st) in
  let skipped := count None (results st) in
  let total := List.length (results st) in
  log (10%N :: py "Total Tests: " ++ str_of_nat total) (py "END") ;;;
  log (py "Passed: " ++ str_of_nat passed) (py "GREEN") ;;;
  log (py "Failed: " ++ str_of_nat failed)
      (if 0 <? failed then py "RED" else py "END") ;;;
  log (py "Skipped: " ++ str_of_nat skipped)
      (if 0 <? skipped then py "YELLOW" else py "END") ;;;
  log (10%N :: py "Detailed Results:") (py "END") ;;;
  for_each (results st) ;;;
  log (10%N :: rule) (py "BLUE") ;;;
  if failed =? 0 then
    log (py "ALL TESTS PASSED!") (py "GREEN") ;;;
    ret 0
  else
    log (str_of_nat failed ++ py " TEST(S) FAILED") (py "RED") ;;;
    ret 1.

(** [main], after the arguments are parsed: the value returned is the
    code handed to [sys.exit]. *)
Definition main (url text_arg : str) (image : option str) : M state nat :=
  let blue := class_get CLASS (py "BLUE") [] in
  let end_ := class_get CLASS (py "END") [] in
  print (10%N :: blue ++ py "GCP Emotion Decoding Chatbot - API Test Suite" ++ end_) ;;;
  print (blue ++ py "Target URL: " ++ url ++ end_) ;;;
  print (blue ++ py "Timestamp: " ++ isoformat (clock C) ++ end_) ;;;
  init url ;;;
  test_health_check ;;;
  test_text_analysis text_arg ;;;
  test_image_analysis image ;;;
  test_multimodal_analysis text_arg image ;;;
  print_summary.

End Methods.

(** What [log] prints for a message in a colour. *)
Definition colored (message color : str) : str :=
  class_get CLASS color (class_get CLASS (py "END") [])
  ++ message ++ class_get CLASS (py "END") [].

(** The lines of the summary: its head, the four counts, one line per
    result, and the verdict. *)
Definition summary_head : list str :=
  [ colored (10%N :: rule) (py "BLUE");
    colored (py "TEST SUMMARY") (py "BLUE");
    colored rule (py "BLUE") ].

Definition count_lines (total passed failed skipped : nat) : list str :=
  [ colored (10%N :: py "Total Tests: " ++ str_of_nat total) (py "END");
    colored (py "Passed: " ++ str_of_nat passed) (py "GREEN");
    colored (py "Failed: " ++ str_of_nat failed)
      (if 0 <? failed then py "RED" else py "END");
    colored (py "Skipped: " ++ str_of_nat skipped)
      (if 0 <? skipped then py "YELLOW" else py "END") ].

Definition detail_line (entry : str * option bool) : str :=
  match snd entry with
  | Some true => colored (py "  " ++ check ++ py " " ++ fst entry) (py "GREEN")
  | Some false => colored (py "  " ++ cross ++ py " " ++ fst entry) (py "RED")
  | None =>
      colored (py "  " ++ circle ++ py " " ++ fst entry ++ py " (skipped)")
        (py "YELLOW")
  end.

Definition verdict_lines (failed : nat) : list str :=
  [ colored (10%N :: rule) (py "BLUE");
    if failed =? 0 then colored (py "ALL TESTS PASSED!") (py "GREEN")
    else colored (str_of_nat failed ++ py " TEST(S) FAILED") (py "RED") ].

(** A computation that prints the lines [ls] and does nothing else,
    seen from a state whose results are [rs]; it returns [a]. *)
Definition emits_at (A : Type) (rs : list (str * option bool))
    (m : M state A) (a : A) (ls : list str) : Prop :=
  forall st, results st = rs ->
    m st = (Ok a, mkState (base_url st) rs (console st ++ ls) (sent st)).

(** A computation that only prints, seen from a state whose results are
    [rs]: it returns [a] and adds lines to the console, nothing else. *)
Definition prints_at (A : Type) (rs : list (str * option bool))
    (m : M state A) (a : A) : Prop :=
  forall st, results st = rs ->
    exists lines,
      m st = (Ok a, mkState (base_url st) rs (console st ++ lines) (sent st)).

(** A test method records: it returns without raising, adds one entry
    under [name] to the results, returns [False] exactly when that entry
    is [False], sends at most one request and leaves the base URL as it
    was. *)
Definition records (name : str) (m : M state bool) : Prop :=
  forall st,
    exists b outcome lines reqs,
      m st = (Ok b, mkState (base_url st) (results st ++ [(name, outcome)])
                      (console st ++ lines) (sent st ++ reqs))
      /\ b = match outcome with Some false => false | _ => true end
      /\ List.length reqs <= 1.

(** A computation run from [st] ends with the value [a], the base URL
    [base], the results [rs] and the requests [reqs], having printed
    some lines. *)
Definition ends (A : Type) (m : M state A) (st : state) (a : A)
    (base : str) (rs : list (str * option bool)) (reqs : list request) : Prop :=
  exists lines, m st = (Ok a, mkState base rs (console st ++ lines) reqs).

(** The verdict of the tester on one request: the service answered 200
    and the body could be read as JSON. *)
Definition passes (C : Client) (history : list request) (r : request) : bool :=
  match requests C history r with
  | Ok response =>
      (status_code response =? 200)
      && match json response with Ok _ => true | Raise _ => false end
  | Raise _ => false
  end.

(** A client whose service answers every request with the same reply
    and whose disk holds no file. *)
Definition steady (r : Result reply) : Client :=
  {| requests := fun _ _ => r;
     dumps := fun _ => py "{...}";
     path_exists := fun _ => false;
     read_bytes := fun _ => Raise (Exn (OtherError (py "FileNotFoundError")) []);
     b64encode := fun b => b;
     clock := noon |}.

Definition healthy : Result reply :=
  Ok {| status_code := 200; json := Ok (PDict []); text := py "{}" |}.

Definition fresh : state := mkState [] [] [] [].

(** A client whose disk holds every file, none of them readable. *)
Definition pictured : Client :=
  {| requests := fun _ _ => healthy;
     dumps := fun _ => py "{...}";
     path_exists := fun _ => true;
     read_bytes := fun _ =>
       Raise (Exn (OtherError (py "PermissionError")) (py "Permission denied"));
     b64encode := fun b => b;
     clock := noon |}.

End Tester.

(** ** Text search *)

Section Find.

Variable sep : str.
Hypothesis sep_nonempty : sep <> [].

Lemma starts_with_nil : starts_with sep [] = false.
Proof. destruct sep; [congruence | reflexivity]. Qed.

Lemma find_nil : find sep [] = None.
Proof. simpl. now rewrite starts_with_nil. Qed.

Lemma starts_with_firstn (p s : str) (k : nat) :
  starts_with p (firstn k s) = true -> starts_with p s = true.
Proof.
  revert s k. induction p as [|a p IH]; intros s k H; [reflexivity|].
  destruct s as [|b s]; [now rewrite firstn_nil in H|].
  destruct k as [|k]; [discriminate|]. simpl in *.
  apply andb_true_iff in H as [Hab H]. rewrite Hab. simpl. eauto.
Qed.

Lemma starts_with_length (p s : str) :
  starts_with p s = true -> List.length p <= List.length s.
Proof.
  revert s. induction p as [|a p IH]; intros s H; simpl; [lia|].
  destruct s as [|b s]; [discriminate|]. simpl in *.
  apply andb_true_iff in H as [_ H]. apply IH in H. lia.
Qed.

Lemma starts_with_firstn_long (p s : str) (k : nat) :
  starts_with p s = true -> List.length p <= k ->
  starts_with p (firstn k s) = true.
Proof.
  revert s k. induction p as [|a p IH]; intros s k H Hk; [reflexivity|].
  destruct s as [|b s]; [discriminate|].
  destruct k as [|k]; simpl in Hk; [lia|]. simpl in *.
  apply andb_true_iff in H as [Hab H]. rewrite Hab. simpl.
  apply IH; [assumption | lia].
Qed.

(** What [find] answers is an occurrence, and the leftmost one. *)
Lemma find_some (s : str) (j : nat) :
  find sep s = Some j ->
  starts_with sep (skipn j s) = true
  /\ j + List.length sep <= List.length s
  /\ forall i, i < j -> starts_with sep (skipn i s) = false.
Proof.
  revert j. induction s as [|c s IH]; intros j H.
  - rewrite find_nil in H. discriminate.
  - simpl in H. destruct (starts_with sep (c :: s)) eqn:E.
    + injection H as <-. simpl. split; [assumption|].
      split; [apply starts_with_length in E; simpl in E; lia | intros; lia].
    + destruct (find sep s) as [j'|] eqn:F; [|discriminate].
      injection H as <-. destruct (IH j' eq_refl) as (H1 & H2 & H3).
      simpl. split; [assumption|]. split; [lia|].
      intros [|i] Hi; [assumption|]. simpl. apply H3. lia.
Qed.

Lemma find_none (s : str) (i : nat) :
  find sep s = None -> starts_with sep (skipn i s) = false.
Proof.
  revert i. induction s as [|c s IH]; intros i H.
  - rewrite skipn_nil. apply starts_with_nil.
  - simpl in H. destruct (starts_with sep (c :: s)) eqn:E; [discriminate|].
    destruct (find sep s) eqn:F; [discriminate|].
    destruct i; simpl; auto.
Qed.

(** The text before the leftmost occurrence holds no occurrence. *)
Lemma find_firstn_none (s : str) (j : nat) :
  find sep s = Some j -> find sep (firstn j s) = None.
Proof.
  revert j. induction s as [|c s IH]; intros j H.
  - rewrite find_nil in H. discriminate.
  - simpl in H. destruct (starts_with sep (c :: s)) eqn:E.
    + injection H as <-. apply find_nil.
    + destruct (find sep s) as [j'|] eqn:F; [|discriminate].
      injection H as <-. cbn [firstn find].
      destruct (starts_with sep (c :: firstn j' s)) eqn:E'.
      * apply (starts_with_firstn sep (c :: s) (S j')) in E'. congruence.
      * now rewrite (IH j' eq_refl).
Qed.

(** Cutting the text after an occurrence leaves that occurrence the
    leftmost. *)
Lemma find_firstn_some (s : str) (j k : nat) :
  find sep s = Some j -> j + List.length sep <= k ->
  find sep (firstn k s) = Some j.
Proof.
  revert j k. induction s as [|c s IH]; intros j k H Hk.
  - rewrite find_nil in H. discriminate.
  - simpl in H. destruct (starts_with sep (c :: s)) eqn:E.
    + injection H as <-. simpl in Hk.
      destruct k as [|k]; [destruct sep; [congruence | simpl in Hk; lia]|].
      pose proof (starts_with_firstn_long sep (c :: s) (k := S k) E Hk) as E'.
      cbn [firstn find] in *. now rewrite E'.
    + destruct (find sep s) as [j'|] eqn:F; [|discriminate].
      injection H as <-. destruct k as [|k]; [lia|]. cbn [firstn find].
      destruct (starts_with sep (c :: firstn k s)) eqn:E'.
      * apply (starts_with_firstn sep (c :: s) (S k)) in E'. congruence.
      * rewrite (IH j' k eq_refl); [reflexivity | lia].
Qed.

Lemma up_to_idem (s : str) : up_to sep (up_to sep s) = up_to sep s.
Proof.
  unfold up_to at 2 3. destruct (find sep s) as [j|] eqn:F.
  - unfold up_to. now rewrite (find_firstn_none _ F).
  - unfold up_to. now rewrite F.
Qed.

(** The first two pieces of a split. *)
Lemma split_from_first (fuel : nat) (s : str) :
  List.length s <= fuel ->
  nth_error (split_from fuel sep s) 0 = Some (up_to sep s).
Proof.
  intros Hf. unfold up_to. destruct fuel as [|fuel]; simpl.
  - destruct s; [|simpl in Hf; lia]. now rewrite find_nil.
  - destruct (find sep s); reflexivity.
Qed.

Lemma split_from_second (fuel : nat) (s : str) (i : nat) :
  List.length s <= fuel -> find sep s = Some i ->
  nth_error (split_from fuel sep s) 1
  = Some (up_to sep (skipn (i + List.length sep) s)).
Proof.
  intros Hf F. destruct (find_some _ F) as (_ & Hlen & _).
  assert (0 < List.length sep) by (destruct sep; [congruence | simpl; lia]).
  destruct fuel as [|fuel]; [lia|]. simpl. rewrite F. simpl.
  apply split_from_first. rewrite length_skipn. lia.
Qed.

(** The fuel of [split] is enough: more of it changes nothing. *)
Lemma split_from_fuel (f g : nat) (s : str) :
  List.length s <= f -> List.length s <= g ->
  split_from f sep s = split_from g sep s.
Proof.
  assert (Hnil : forall n, split_from n sep [] = [[]]).
  { intros [|n]; simpl; [reflexivity | now rewrite starts_with_nil]. }
  assert (Hsep : 0 < List.length sep) by (destruct sep; [congruence | simpl; lia]).
  revert g s. induction f as [|f IH]; intros g s Hf Hg.
  - destruct s; [|simpl in Hf; lia]. now rewrite !Hnil.
  - destruct g as [|g].
    + destruct s; [|simpl in Hg; lia]. now rewrite !Hnil.
    + simpl. destruct (find sep s) as [j|] eqn:F; [|reflexivity].
      destruct (find_some _ F) as (_ & Hlen & _).
      f_equal. apply IH; rewrite length_skipn; lia.
Qed.

End Find.

(** ** The candidate of the extractor *)

Lemma fence_nonempty : fence <> [].
Proof. discriminate. Qed.

Lemma fence_json_nonempty : fence_json <> [].
Proof. discriminate. Qed.

Lemma split_ok (sep s : str) :
  sep <> [] -> split sep s = Ok (split_from (List.length s) sep s).
Proof. destruct sep; [congruence | reflexivity]. Qed.

Lemma starts_with_app (p q s : str) :
  starts_with (p ++ q) s = true -> starts_with p s = true.
Proof.
  revert s. induction p as [|a p IH]; intros s H; [reflexivity|].
  destruct s as [|b s]; [discriminate|]. simpl in *.
  apply andb_true_iff in H as [Hab H]. rewrite Hab. simpl. auto.
Qed.

(** A JSON marker begins with a fence. *)
Lemma fence_json_is_fence (s : str) :
  starts_with fence_json s = true -> starts_with fence s = true.
Proof. apply (starts_with_app fence (py "json")). Qed.

Lemma no_fence_no_fence_json (s : str) :
  find fence s = None -> find fence_json s = None.
Proof.
  intros H. destruct (find fence_json s) as [q|] eqn:F; [|reflexivity].
  destruct (find_some fence_json_nonempty _ F) as (Hq & _).
  apply fence_json_is_fence in Hq.
  now rewrite (find_none fence_nonempty s q H) in Hq.
Qed.

(** The second piece of a split, cut at its first fence. *)
Lemma second_piece_cut (sep s : str) (i : nat) :
  sep <> [] -> find sep s = Some i ->
  rbind (split sep s) (fun parts =>
  rbind (getitem parts 1) (fun piece =>
  rbind (split fence piece) (fun parts' => getitem parts' 0)))
  = Ok (up_to fence (up_to sep (skipn (i + List.length sep) s))).
Proof.
  intros Hsep F. rewrite (split_ok s Hsep). cbn [rbind]. unfold getitem at 1.
  rewrite (split_from_second Hsep s (Nat.le_refl _) F). cbn [rbind].
  rewrite (split_ok _ fence_nonempty). cbn [rbind]. unfold getitem.
  now rewrite (split_from_first fence_nonempty _ (Nat.le_refl _)).
Qed.

Lemma json_str_json (response_text : str) (i : nat) :
  find fence_json response_text = Some i ->
  json_str response_text
  = Ok (up_to fence (up_to fence_json
                       (skipn (i + List.length fence_json) response_text))).
Proof.
  intros F. unfold json_str, contains. rewrite F.
  apply (second_piece_cut _ fence_json_nonempty F).
Qed.

Lemma json_str_generic (response_text : str) (i : nat) :
  find fence_json response_text = None ->
  find fence response_text = Some i ->
  json_str response_text
  = Ok (up_to fence (skipn (i + List.length fence) response_text)).
Proof.
  intros Fj F. unfold json_str, contains. rewrite Fj, F.
  rewrite (second_piece_cut _ fence_nonempty F).
  now rewrite (up_to_idem fence_nonempty).
Qed.

Lemma json_str_plain (response_text : str) :
  find fence response_text = None -> json_str response_text = Ok response_text.
Proof.
  intros F. unfold json_str, contains.
  now rewrite (no_fence_no_fence_json _ F), F.
Qed.

(** The extractor returns whatever the decoder makes of the trimmed
    candidate, and the fallback when the decoder raises. *)
Lemma parse_of_candidate (response_text cand : str) :
  json_str response_text = Ok cand ->
  _parse_emotion_response response_text
  = match json_loads (strip cand) with
    | Ok v => v
    | Raise _ => fallback response_text
    end.
Proof. intros H. unfold _parse_emotion_response. now rewrite H. Qed.

(** The tail of a text that starts with a fence, against a JSON marker
    one or two places further on. *)
Lemma overlap_one (t : str) :
  starts_with fence t = true ->
  starts_with fence_json (skipn 1 t) = true ->
  starts_with (py "````json") t = true.
Proof.
  intros H1 H2. destruct t as [|a t]; [discriminate|].
  cbn [skipn] in H2. change fence with (96%N :: py "``") in H1.
  cbn [starts_with] in H1. apply andb_true_iff in H1 as [Ha _].
  change (py "````json") with (96%N :: fence_json).
  cbn [starts_with]. now rewrite Ha, H2.
Qed.

Lemma overlap_two (t : str) :
  starts_with fence t = true ->
  starts_with fence_json (skipn 2 t) = true ->
  starts_with (py "`````json") t = true.
Proof.
  intros H1 H2. destruct t as [|a [|b t]]; try discriminate.
  cbn [skipn] in H2. change fence with (96%N :: 96%N :: py "`") in H1.
  cbn [starts_with] in H1. apply andb_true_iff in H1 as [Ha H1].
  apply andb_true_iff in H1 as [Hb _].
  change (py "`````json") with (96%N :: 96%N :: fence_json).
  cbn [starts_with]. now rewrite Ha, Hb, H2.
Qed.

(** Unless the closing fence runs into another JSON marker, cutting at
    the next JSON marker first does not move the cut at the fence. *)
Lemma up_to_fence_through_marker (rest : str) :
  fence_overlapped rest = false ->
  up_to fence (up_to fence_json rest) = up_to fence rest.
Proof.
  intros Hov. unfold up_to at 2.
  destruct (find fence_json rest) as [q|] eqn:Fq; [|reflexivity].
  destruct (find_some fence_json_nonempty _ Fq) as (Hq & Hqlen & _).
  pose proof (fence_json_is_fence _ Hq) as Hqf.
  unfold fence_overlapped in Hov. unfold up_to at 2.
  destruct (find fence rest) as [p|] eqn:Fp.
  2:{ now rewrite (find_none fence_nonempty rest q Fp) in Hqf. }
  destruct (find_some fence_nonempty _ Fp) as (Hp & Hplen & Hmin).
  apply orb_false_iff in Hov as [Hov1 Hov2].
  assert (Hpq : p <= q).
  { destruct (Nat.le_gt_cases p q) as [|Hlt]; [assumption|].
    rewrite (Hmin q Hlt) in Hqf. discriminate. }
  assert (Hcases : q = p \/ p + 3 <= q).
  { destruct (Nat.eq_dec q p) as [|Hne]; [now left|].
    destruct (Nat.eq_dec q (1 + p)) as [->|Hne1].
    { rewrite <- skipn_skipn in Hq.
      now rewrite (overlap_one _ Hp Hq) in Hov1. }
    destruct (Nat.eq_dec q (2 + p)) as [->|Hne2].
    { rewrite <- skipn_skipn in Hq.
      now rewrite (overlap_two _ Hp Hq) in Hov2. }
    right. lia. }
  destruct Hcases as [->|Hfar].
  - unfold up_to. now rewrite (find_firstn_none fence_nonempty _ Fp).
  - unfold up_to.
    rewrite (find_firstn_some fence_nonempty _ (k := q) Fp Hfar).
    rewrite firstn_firstn. f_equal. lia.
Qed.

(** ** Properties of the extractor *)

(** C1, as amended.  For every raw text that contains the JSON marker and
    whose next closing fence does not run into another JSON marker (the
    text at the fence does not read four or five backticks and then
    [json]), the extractor selects the substring between the first marker
    and the next closing fence (the rest of the text when no fence
    follows); and when that candidate, trimmed, decodes as JSON, the
    extractor returns exactly the decoded value, whatever prose surrounds
    the fence. *)
Theorem json_fence_selects_candidate (raw_text cand : str) :
  between_json_marker_and_fence raw_text = Some cand ->
  (forall rest, after_marker fence_json raw_text = Some rest ->
                fence_overlapped rest = false) ->
  json_str raw_text = Ok cand
  /\ forall v, json_loads (strip cand) = Ok v ->
               _parse_emotion_response raw_text = v.
Proof.
  unfold between_json_marker_and_fence, after_marker. intros Hc Hov.
  destruct (find fence_json raw_text) as [i|] eqn:F; [|discriminate].
  cbn [option_map] in Hc. injection Hc as Hc. specialize (Hov _ eq_refl).
  assert (Hj : json_str raw_text = Ok cand).
  { rewrite (json_str_json _ F), (up_to_fence_through_marker _ Hov).
    f_equal. exact Hc. }
  split; [exact Hj|]. intros v Hv.
  rewrite (parse_of_candidate _ Hj). now rewrite Hv.
Qed.

Lemma json_fence_selects_candidate_witness :
  _parse_emotion_response fenced_joy
  = PDict [ (py "primary_emotion", PStr (py "joy")); (py "confidence", PInt 90) ].
Proof.
  refine (proj2 (@json_fence_selects_candidate fenced_joy
                   (10%N :: pyq "{'primary_emotion':'joy','confidence':90}" ++ [10%N])
                   _ _) _ _).
  - vm_compute. reflexivity.
  - intros rest H. vm_compute in H. injection H as <-. vm_compute. reflexivity.
  - vm_compute. reflexivity.
Defined.

(** C1, as stated, fails: on [```json{}````json] the substring between
    the marker and the next closing fence is [{}], which decodes to the
    empty object, but the extractor's candidate keeps a backtick, does
    not decode, and the fallback record is returned. *)
Lemma json_fence_counterexample :
  contains fence_json overlapping_reply = true
  /\ between_json_marker_and_fence overlapping_reply = Some (py "{}")
  /\ json_loads (strip (py "{}")) = Ok (PDict [])
  /\ json_str overlapping_reply = Ok (py "{}`")
  /\ json_str overlapping_reply <> Ok (py "{}")
  /\ _parse_emotion_response overlapping_reply = fallback overlapping_reply
  /\ _parse_emotion_response overlapping_reply <> PDict [].
Proof. vm_compute. repeat split; discriminate. Qed.

(** C2, at the failing input.  The reply [42] has no fence and decodes to
    the integer 42; the extractor returns that integer, not the fallback
    record. *)
Theorem non_object_is_returned :
  json_str (py "42") = Ok (py "42")
  /\ json_loads (strip (py "42")) = Ok (PInt 42)
  /\ _parse_emotion_response (py "42") = PInt 42
  /\ _parse_emotion_response (py "42") <> fallback (py "42").
Proof. vm_compute. repeat split; discriminate. Qed.

(** C3, as amended.  For every raw text that contains no fence marker
    and on which, once it is trimmed of white space by [str.strip],
    [json.loads] raises, the extractor returns the record with
    [primary_emotion] "unknown",
    [confidence] 0 and both [explanation] and [raw_response] equal to the
    raw text, untrimmed. *)
Theorem no_fence_invalid_json_falls_back (raw_text : str) (e : exn) :
  contains fence raw_text = false ->
  json_loads (strip raw_text) = Raise e ->
  _parse_emotion_response raw_text
  = PDict [ (py "primary_emotion", PStr (py "unknown"));
            (py "confidence", PInt 0);
            (py "explanation", PStr raw_text);
            (py "raw_response", PStr raw_text) ].
Proof.
  unfold contains. intros Hf He.
  destruct (find fence raw_text) eqn:F; [discriminate|].
  rewrite (parse_of_candidate _ (json_str_plain _ F)). now rewrite He.
Qed.

Lemma no_fence_invalid_json_falls_back_witness :
  _parse_emotion_response plain_prose
  = PDict [ (py "primary_emotion", PStr (py "unknown"));
            (py "confidence", PInt 0);
            (py "explanation", PStr plain_prose);
            (py "raw_response", PStr plain_prose) ].
Proof.
  apply (@no_fence_invalid_json_falls_back plain_prose (Exn JSONDecodeError [])).
  - vm_compute. reflexivity.
  - vm_compute. reflexivity.
Defined.

(** C3, as stated, fails: a form feed followed by [{}] holds no fence and
    is not JSON (the decoder raises on it), yet the extractor trims the
    form feed away, decodes the rest and returns the empty object. *)
Lemma no_fence_invalid_json_counterexample :
  contains fence form_feed_reply = false
  /\ (exists e, json_loads form_feed_reply = Raise e)
  /\ _parse_emotion_response form_feed_reply = PDict []
  /\ _parse_emotion_response form_feed_reply <> fallback form_feed_reply.
Proof.
  vm_compute. repeat split; try discriminate. eexists. reflexivity.
Qed.

(** C4.  For every raw text that contains the fence marker but not the
    JSON marker, the candidate is exactly the substring between the first
    fence and the next one, and the rest of the text after the first
    fence when no second fence exists; it is that candidate, trimmed,
    which the decoder receives. *)
Theorem generic_fence_selects_first_pair (raw_text : str) :
  contains fence raw_text = true ->
  contains fence_json raw_text = false ->
  exists cand,
    between_first_pair raw_text = Some cand
    /\ json_str raw_text = Ok cand
    /\ (forall rest, after_marker fence raw_text = Some rest ->
                     find fence rest = None -> cand = rest)
    /\ _parse_emotion_response raw_text
       = match json_loads (strip cand) with
         | Ok v => v
         | Raise _ => fallback raw_text
         end.
Proof.
  unfold contains, between_first_pair, after_marker. intros Hf Hj.
  destruct (find fence raw_text) as [i|] eqn:F; [|discriminate].
  destruct (find fence_json raw_text) eqn:Fj; [discriminate|].
  exists (up_to fence (skipn (i + List.length fence) raw_text)).
  pose proof (json_str_generic _ Fj F) as Hc.
  repeat split; try assumption.
  - intros rest Hr Hn. injection Hr as Hr. rewrite <- Hr in Hn |- *.
    unfold up_to. change (List.length fence) with 3. now rewrite Hn.
  - apply (parse_of_candidate _ Hc).
Qed.

Lemma generic_fence_selects_first_pair_witness :
  exists cand,
    between_first_pair (py "Sure: ``` {} ``` done") = Some cand
    /\ json_str (py "Sure: ``` {} ``` done") = Ok cand
    /\ (forall rest, after_marker fence (py "Sure: ``` {} ``` done") = Some rest ->
                     find fence rest = None -> cand = rest)
    /\ _parse_emotion_response (py "Sure: ``` {} ``` done")
       = match json_loads (strip cand) with
         | Ok v => v
         | Raise _ => fallback (py "Sure: ``` {} ``` done")
         end.
Proof.
  apply (@generic_fence_selects_first_pair (py "Sure: ``` {} ``` done")).
  - vm_compute. reflexivity.
  - vm_compute. reflexivity.
Defined.

(** ** Records *)

Lemma str_eqb_eq (a b : str) : str_eqb a b = true <-> a = b.
Proof.
  revert b. induction a as [|x a IH]; intros [|y b]; simpl;
    try (split; [discriminate | congruence]); [tauto|].
  rewrite andb_true_iff, N.eqb_eq, IH. split; [intros [-> ->] | intros [= -> ->]]; auto.
Qed.

Lemma str_eqb_refl (a : str) : str_eqb a a = true.
Proof. now apply str_eqb_eq. Qed.

Lemma dict_get_set_same (d : dict) (k : str) (v : pyobj) :
  dict_get (dict_set d k v) k = Some v.
Proof.
  induction d as [|[k' v'] d IH]; simpl.
  - now rewrite str_eqb_refl.
  - destruct (str_eqb k' k) eqn:E; simpl; now rewrite E.
Qed.

Lemma dict_get_set_other (d : dict) (k k' : str) (v : pyobj) :
  str_eqb k k' = false ->
  dict_get (dict_set d k v) k' = dict_get d k'.
Proof.
  intros Hk. induction d as [|[k0 v0] d IH]; simpl.
  - now rewrite Hk.
  - destruct (str_eqb k0 k) eqn:E; simpl.
    + apply str_eqb_eq in E as ->. now rewrite Hk.
    + now rewrite IH.
Qed.

(** A stamped record holds the mode and the time it was stamped with. *)
Lemma stamp_fields (input_type : str) (t : datetime) (d : dict) :
  record_get (stamp input_type t d) (py "input_type") = Some (PStr input_type)
  /\ record_get (stamp input_type t d) (py "timestamp") = Some (PStr (isoformat t)).
Proof.
  unfold stamp, record_get. split.
  - rewrite dict_get_set_other by reflexivity. apply dict_get_set_same.
  - apply dict_get_set_same.
Qed.

(** A stamped record is the mapping it was made from, but for the two
    keys of the stamp. *)
Lemma stamp_stamped_over (mode : str) (t : datetime) (d : dict) :
  stamped_over mode t d (stamp mode t d).
Proof.
  destruct (stamp_fields mode t d) as [H1 H2].
  split; [exact H1|]. split; [exact H2|].
  intros k Hi Ht. unfold stamp, record_get.
  rewrite dict_get_set_other by exact Ht.
  now rewrite dict_get_set_other by exact Hi.
Qed.

(** ** Properties of the handlers *)

Section Handlers.

Variable P : Platform.

Notation "'world'" := (World (Part P)) (only parsing).

(** The [except] branch always returns the error record, stamped with
    the clock at that moment. *)
Lemma on_error_returns (what : str) (e : exn) (w : world) :
  on_error P what e w
  = (Ok (error_record (exn_msg e) (now w)),
     mkWorld (now w) (upstream_requests w)
       (log w ++ [(ERROR, py "Error analyzing " ++ what ++ py " emotion: "
                            ++ exn_msg e)])).
Proof. reflexivity. Qed.

Lemma try_on_error_catches (what : str) (block : M world pyobj) (w : world) :
  catches block (try_except block (on_error P what)) w.
Proof.
  unfold catches, try_except. destruct (block w) as [[r|e] w1] eqn:B.
  - split; [eauto|]. intros e w2 H. discriminate.
  - rewrite on_error_returns. split; [eauto|].
    intros e' w2 H. injection H as <- <-. reflexivity.
Qed.

(** What the shared lines make of a reply. *)
Lemma finish_cases (input_type what : str) (response : Response.t) (w : world) :
  match Response.text response with
  | Raise e => finish P input_type what response w = (Raise e, w)
  | Ok reply =>
      match _parse_emotion_response reply with
      | PDict d =>
          exists msg,
            finish P input_type what response w
            = (Ok (stamp input_type (now w) d),
               mkWorld (now w) (upstream_requests w) (log w ++ [(INFO, msg)]))
      | v =>
          exists e,
            setitem v (py "input_type") (PStr input_type) = Raise e
            /\ finish P input_type what response w = (Raise e, w)
      end
  end.
Proof.
  unfold finish, bind, lift. destruct (Response.text response) as [reply|e]; [|reflexivity].
  destruct (_parse_emotion_response reply) as [| | | | | | |d];
    [eexists; split; reflexivity .. | eexists; reflexivity].
Qed.

(** A call to the model is recorded, whatever it answers. *)
Lemma model_generate_content_log (c : content (Part P)) (w : world) :
  upstream_requests (snd (model_generate_content P c w)) = upstream_requests w ++ [c].
Proof.
  unfold model_generate_content. now destruct (generate_content P w c).
Qed.

Lemma forallb_dict_set (f : str * pyobj -> bool) (d : dict) (k : str) (v : pyobj) :
  (forall k', f (k', v) = true) ->
  forallb f d = true -> forallb f (dict_set d k v) = true.
Proof.
  intros Hv. induction d as [|[k' v'] d IH]; simpl; intros H.
  - now rewrite Hv.
  - apply andb_true_iff in H as [H1 H2].
    destruct (str_eqb k' k); simpl.
    + now rewrite Hv, H2.
    + now rewrite H1, IH.
Qed.

(** Stamping keeps a flat record flat. *)
Lemma stamp_flat (input_type : str) (t : datetime) (d : dict) :
  flat (PDict d) = true -> flat (stamp input_type t d) = true.
Proof.
  intros H. unfold stamp, flat in *.
  apply forallb_dict_set; [reflexivity|].
  apply forallb_dict_set; [reflexivity|]. exact H.
Qed.

Lemma error_record_flat (msg : str) (t : datetime) :
  flat (error_record msg t) = true.
Proof. reflexivity. Qed.

Lemma fallback_flat (raw_text : str) : flat (fallback raw_text) = true.
Proof. reflexivity. Qed.

(** What a handler returns after a call to the model with content [c]. *)
Lemma after_call_passes_through (input_type what what' : str)
    (c : content (Part P)) (w : world) (r : pyobj) :
  fst (try_except (response <- model_generate_content P c ;;
                   finish P input_type what response)
                  (on_error P what') w) = Ok r ->
  passes_through P w (Some c) input_type r.
Proof.
  assert (Herr : forall msg t,
             passes_through P w (Some c) input_type (error_record msg t)).
  { intros msg t. split; [reflexivity|]. left. now exists msg, t. }
  unfold try_except, bind, model_generate_content.
  destruct (generate_content P w c) as [[response|e] t] eqn:G.
  2:{ rewrite on_error_returns. cbn [fst]. intros [= <-]. apply Herr. }
  set (w1 := mkWorld t (upstream_requests w ++ [c]) (log w)).
  pose proof (finish_cases input_type what response w1) as F.
  destruct (Response.text response) as [reply|e] eqn:T.
  2:{ rewrite F, on_error_returns. cbn [fst]. intros [= <-]. apply Herr. }
  destruct (_parse_emotion_response reply) as [| | | | | | |d] eqn:E;
    try (destruct F as (e & _ & ->); rewrite on_error_returns; cbn [fst];
         intros [= <-]; apply Herr).
  destruct F as (msg & ->). cbn [fst]. intros [= <-].
  split; [reflexivity|]. right. exists c, reply, t, d.
  split; [reflexivity|]. split; [now exists response|].
  split; [exact E|]. split; [reflexivity|].
  split; [apply stamp_stamped_over|].
  split; [apply stamp_flat|]. split.
  - intros Hd. apply stamp_flat. rewrite Hd. apply fallback_flat.
  - intros Hr. destruct (flat (PDict d)) eqn:Fl; [|reflexivity].
    now rewrite (stamp_flat input_type t d Fl) in Hr.
Qed.

(** After a call with content [c] the calls recorded are those before
    it and [c]: neither the shared lines nor the [except] branch call
    the model. *)
Lemma after_call_requests (input_type what what' : str)
    (c : content (Part P)) (w : world) :
  upstream_requests
    (snd (try_except (response <- model_generate_content P c ;;
                      finish P input_type what response)
                     (on_error P what') w))
  = upstream_requests w ++ [c].
Proof.
  unfold try_except, bind, model_generate_content.
  destruct (generate_content P w c) as [[response|e] t] eqn:G;
    [|now rewrite on_error_returns].
  set (w1 := mkWorld t (upstream_requests w ++ [c]) (log w)).
  pose proof (finish_cases input_type what response w1) as F.
  destruct (Response.text response) as [reply|e] eqn:T;
    [|now rewrite F, on_error_returns].
  destruct (_parse_emotion_response reply) as [| | | | | | |d] eqn:E;
    try (destruct F as (e & _ & ->); now rewrite on_error_returns).
  destruct F as (msg & ->). reflexivity.
Qed.

(** When the call succeeds and the extractor returns a mapping, parsed
    or fallback, the handler returns that mapping with [input_type] and
    the time at which the call came back. *)
Lemma after_call_stamped (input_type what what' : str) (c : content (Part P))
    (w : world) (response : Response.t) (t : datetime) (reply : str) (d : dict) :
  generate_content P w c = (Ok response, t) ->
  Response.text response = Ok reply ->
  _parse_emotion_response reply = PDict d ->
  fst (try_except (response <- model_generate_content P c ;;
                   finish P input_type what response)
                  (on_error P what') w)
  = Ok (stamp input_type t d).
Proof.
  intros G T E. unfold try_except, bind, model_generate_content. rewrite G.
  set (w1 := mkWorld t (upstream_requests w ++ [c]) (log w)).
  pose proof (finish_cases input_type what response w1) as F.
  rewrite T, E in F. destruct F as (msg & ->). reflexivity.
Qed.

(** The handlers, in the shared shape. *)
Lemma analyze_text_emotion_shape (text : pyobj) :
  analyze_text_emotion P text
  = try_except (response <- model_generate_content P (CPrompt (text_prompt P text)) ;;
                finish P (py "text") (py "Text") response)
               (on_error P (py "text")).
Proof. reflexivity. Qed.

Lemma analyze_image_emotion_shape (image_data image_uri : pyobj) :
  analyze_image_emotion P image_data image_uri
  = try_except (image_part <- lift (prepare_image_part P image_data image_uri) ;;
                response <- model_generate_content P (CParts image_prompt image_part) ;;
                finish P (py "image") (py "Image") response)
               (on_error P (py "image")).
Proof. reflexivity. Qed.

Lemma analyze_multimodal_emotion_shape (text image_data image_uri : pyobj) :
  analyze_multimodal_emotion P text image_data image_uri
  = try_except (image_part <- lift (prepare_image_part P image_data image_uri) ;;
                response <- model_generate_content P
                              (CParts (multimodal_prompt P text) image_part) ;;
                finish P (py "multimodal") (py "Multimodal") response)
               (on_error P (py "multimodal")).
Proof. reflexivity. Qed.

(** A handler whose image part cannot be built returns the error record;
    one whose image part is built goes on to the call. *)
Lemma image_part_step (what : str) (k : Part P -> M world pyobj)
    (r : Result (Part P)) :
  try_except (image_part <- lift r ;; k image_part) (on_error P what)
  = match r with
    | Ok part => try_except (k part) (on_error P what)
    | Raise e => on_error P what e
    end.
Proof. destruct r; reflexivity. Qed.

End Handlers.

(** *** Failures of the model *)

(** C5.  Each of the three handlers catches whatever its [try] block
    raises, the call to the model included, and returns the record
    [{error: true, message, primary_emotion: "error", confidence: 0,
    timestamp}] whose message is the text of the failure and whose
    timestamp is the clock at that moment; no exception leaves a
    handler. *)
Theorem handlers_catch_failures (P : Platform) (w : World (Part P)) :
  (forall text,
      catches (analyze_text_emotion_try P text)
              (analyze_text_emotion P text) w
      /\ forall e t,
           generate_content P w (CPrompt (text_prompt P text)) = (Raise e, t) ->
           fst (analyze_text_emotion P text w) = Ok (error_record (exn_msg e) t))
  /\ (forall image_data image_uri,
      catches (analyze_image_emotion_try P image_data image_uri)
              (analyze_image_emotion P image_data image_uri) w
      /\ forall part e t,
           prepare_image_part P image_data image_uri = Ok part ->
           generate_content P w (CParts image_prompt part) = (Raise e, t) ->
           fst (analyze_image_emotion P image_data image_uri w)
           = Ok (error_record (exn_msg e) t))
  /\ (forall text image_data image_uri,
      catches (analyze_multimodal_emotion_try P text image_data image_uri)
              (analyze_multimodal_emotion P text image_data image_uri) w
      /\ forall part e t,
           prepare_image_part P image_data image_uri = Ok part ->
           generate_content P w (CParts (multimodal_prompt P text) part)
           = (Raise e, t) ->
           fst (analyze_multimodal_emotion P text image_data image_uri w)
           = Ok (error_record (exn_msg e) t)).
Proof.
  split; [|split].
  - intros text. rewrite analyze_text_emotion_shape.
    split; [apply try_on_error_catches|].
    intros e t G.
    refine (proj2 (try_on_error_catches P (py "text") _ w) e
              (mkWorld t (upstream_requests w ++ [_]) (log w)) _).
    unfold bind, model_generate_content. now rewrite G.
  - intros image_data image_uri. rewrite analyze_image_emotion_shape.
    split; [apply try_on_error_catches|].
    intros part e t Hp G.
    refine (proj2 (try_on_error_catches P (py "image") _ w) e
              (mkWorld t (upstream_requests w ++ [_]) (log w)) _).
    unfold bind, lift, model_generate_content. now rewrite Hp, G.
  - intros text image_data image_uri. rewrite analyze_multimodal_emotion_shape.
    split; [apply try_on_error_catches|].
    intros part e t Hp G.
    refine (proj2 (try_on_error_catches P (py "multimodal") _ w) e
              (mkWorld t (upstream_requests w ++ [_]) (log w)) _).
    unfold bind, lift, model_generate_content. now rewrite Hp, G.
Qed.

Lemma handlers_catch_failures_witness :
  fst (analyze_text_emotion (scripted (Raise unavailable) noon)
         (PStr (py "I am happy")) (world0 _))
  = Ok (error_record (py "503 upstream unavailable") noon).
Proof.
  apply (proj2 (proj1 (handlers_catch_failures
                         (scripted (Raise unavailable) noon) (world0 _))
                 (PStr (py "I am happy"))) unavailable noon).
  reflexivity.
Defined.

(** *** Rejected requests *)

(** [jsonify] serializes a mapping of scalars, the error bodies of the
    routes among them. *)
Lemma jsonify_plain_ok (P : Platform) (obj : pyobj) (w : World (Part P)) :
  plain obj = true -> jsonify P obj w = (Ok obj, w).
Proof.
  intros H. unfold jsonify, lift. now rewrite (jsonify_plain P obj H).
Qed.

Lemma jsonify_error_body (P : Platform) (msg : str) (w : World (Part P)) :
  jsonify P (error_body msg) w = (Ok (error_body msg), w).
Proof. now apply jsonify_plain_ok. Qed.

Lemma jsonify_error_record (P : Platform) (msg : str) (t : datetime)
    (w : World (Part P)) :
  jsonify P (error_record msg t) w = (Ok (error_record msg t), w).
Proof. now apply jsonify_plain_ok. Qed.

(** C6.  A POST to [/api/analyze/text] whose JSON body lacks the [text]
    field, or holds the empty string there, is answered 400 with an error
    body, and the world is left as it was: no call to the model is
    made. *)
Theorem text_route_rejects_empty (P : Platform) (d : dict) (w : World (Part P)) :
  dict_get d (py "text") = None \/ dict_get d (py "text") = Some (PStr []) ->
  analyze_text P (Ok (PDict d)) w
  = (Ok (bad_request (py "Text is required")), w)
  /\ upstream_requests (snd (analyze_text P (Ok (PDict d)) w))
     = upstream_requests w.
Proof.
  intros H.
  assert (E : analyze_text P (Ok (PDict d)) w
              = (Ok (bad_request (py "Text is required")), w)).
  { unfold analyze_text, try_except, bind, lift, get_method.
    destruct H as [-> | ->]; cbn [truthy negb];
      now rewrite jsonify_error_body. }
  now rewrite E.
Qed.

Lemma text_route_rejects_empty_witness :
  analyze_text (scripted (says fenced_joy) noon)
    (Ok (PDict [ (py "text", PStr []) ])) (world0 _)
  = (Ok (bad_request (py "Text is required")), world0 _).
Proof.
  apply (proj1 (@text_route_rejects_empty (scripted (says fenced_joy) noon)
                  [ (py "text", PStr []) ] (world0 _)
                  (or_intror eq_refl))).
Defined.

(** C7.  A POST to [/api/analyze/image] with neither [image] nor
    [image_uri], and a POST to [/api/analyze/multimodal] without [text]
    or with neither [image] nor [image_uri], are answered 400 and leave
    the world as it was: the model is not called. *)
Theorem image_routes_reject_missing (P : Platform) (d : dict) (w : World (Part P)) :
  (dict_get d (py "image") = None -> dict_get d (py "image_uri") = None ->
   analyze_image P (Ok (PDict d)) w
   = (Ok (bad_request (py "Image data or URI is required")), w))
  /\ (dict_get d (py "text") = None
      \/ (dict_get d (py "image") = None /\ dict_get d (py "image_uri") = None) ->
      exists msg,
        analyze_multimodal P (Ok (PDict d)) w = (Ok (bad_request msg), w)).
Proof.
  split.
  - intros Hi Hu.
    unfold analyze_image, try_except, bind, lift, get_method.
    rewrite Hi, Hu. cbn [truthy negb andb]. now rewrite jsonify_error_body.
  - intros H.
    unfold analyze_multimodal, try_except, bind, lift, get_method.
    destruct H as [Ht | [Hi Hu]].
    + rewrite Ht. cbn [truthy negb]. rewrite jsonify_error_body.
      eexists. reflexivity.
    + rewrite Hi, Hu.
      destruct (negb (truthy match dict_get d (py "text") with
                             | Some v => v
                             | None => PStr []
                             end)); cbn [truthy negb andb];
        rewrite jsonify_error_body; eexists; reflexivity.
Qed.

Lemma image_routes_reject_missing_witness :
  analyze_image (scripted (says fenced_joy) noon)
    (Ok (PDict [ (py "text", PStr (py "hello")) ])) (world0 _)
  = (Ok (bad_request (py "Image data or URI is required")), world0 _)
  /\ exists msg,
       analyze_multimodal (scripted (says fenced_joy) noon)
         (Ok (PDict [ (py "text", PStr (py "hello")) ])) (world0 _)
       = (Ok (bad_request msg), world0 _).
Proof.
  pose proof (@image_routes_reject_missing (scripted (says fenced_joy) noon)
                [ (py "text", PStr (py "hello")) ] (world0 _)) as [H1 H2].
  split.
  - apply H1; reflexivity.
  - apply H2. right. split; reflexivity.
Defined.

(** *** Stamping *)

(** C8, at the failing input.  The model answers [42]: the call
    succeeds, the extractor returns the integer, the assignment of
    [input_type] raises [TypeError], and the handler returns the error
    record, which has no [input_type]. *)
Theorem integer_reply_loses_input_type :
  fst (analyze_text_emotion (scripted (says (py "42")) noon)
         (PStr (py "I am happy")) (world0 _))
  = Ok (error_record (py "'int' object does not support item assignment") noon)
  /\ has_key (error_record (py "'int' object does not support item assignment") noon)
             (py "input_type") = false.
Proof. split; vm_compute; reflexivity. Qed.

(** Whenever the call succeeds and the extractor returns a mapping, the
    three handlers stamp it with their own mode. *)
Lemma mapping_is_stamped (P : Platform) (w : World (Part P))
    (response : Response.t) (t : datetime) (reply : str) (d : dict) :
  Response.text response = Ok reply ->
  _parse_emotion_response reply = PDict d ->
  (forall text,
      generate_content P w (CPrompt (text_prompt P text)) = (Ok response, t) ->
      fst (analyze_text_emotion P text w) = Ok (stamp (py "text") t d))
  /\ (forall image_data image_uri part,
      prepare_image_part P image_data image_uri = Ok part ->
      generate_content P w (CParts image_prompt part) = (Ok response, t) ->
      fst (analyze_image_emotion P image_data image_uri w)
      = Ok (stamp (py "image") t d))
  /\ (forall text image_data image_uri part,
      prepare_image_part P image_data image_uri = Ok part ->
      generate_content P w (CParts (multimodal_prompt P text) part)
      = (Ok response, t) ->
      fst (analyze_multimodal_emotion P text image_data image_uri w)
      = Ok (stamp (py "multimodal") t d)).
Proof.
  intros T E. split; [|split].
  - intros text G. rewrite analyze_text_emotion_shape.
    now apply after_call_stamped with response reply.
  - intros image_data image_uri part Hp G.
    rewrite analyze_image_emotion_shape, image_part_step, Hp.
    now apply after_call_stamped with response reply.
  - intros text image_data image_uri part Hp G.
    rewrite analyze_multimodal_emotion_shape, image_part_step, Hp.
    now apply after_call_stamped with response reply.
Qed.

(** C9, as amended.  Every record a handler returns is a key-value
    mapping: either the error record, or the object decoded from the
    reply to the handler's own call (the fallback record when decoding
    fails) with the handler's [input_type] and [timestamp] set and every
    other key unchanged.  It is flat when it is the error record, the
    fallback record, or a decoded reply that was flat; the values of a
    decoded reply pass through unchanged, so a record holds a nested
    object only when the object decoded from that reply held one. *)
Theorem results_pass_through (P : Platform) (w : World (Part P)) (r : pyobj) :
  (forall text,
      fst (analyze_text_emotion P text w) = Ok r ->
      passes_through P w (Some (CPrompt (text_prompt P text))) (py "text") r)
  /\ (forall image_data image_uri,
      fst (analyze_image_emotion P image_data image_uri w) = Ok r ->
      passes_through P w
        match prepare_image_part P image_data image_uri with
        | Ok part => Some (CParts image_prompt part)
        | Raise _ => None
        end (py "image") r)
  /\ (forall text image_data image_uri,
      fst (analyze_multimodal_emotion P text image_data image_uri w) = Ok r ->
      passes_through P w
        match prepare_image_part P image_data image_uri with
        | Ok part => Some (CParts (multimodal_prompt P text) part)
        | Raise _ => None
        end (py "multimodal") r).
Proof.
  assert (Herr : forall (what mode : str) (e : exn) (w1 : World (Part P)),
             fst (on_error P what e w1) = Ok r -> passes_through P w None mode r).
  { intros what mode e w1. rewrite on_error_returns. cbn [fst]. intros [= <-].
    split; [reflexivity|]. left. now eexists _, _. }
  split; [|split].
  - intros text. rewrite analyze_text_emotion_shape.
    apply after_call_passes_through.
  - intros image_data image_uri.
    rewrite analyze_image_emotion_shape, image_part_step.
    destruct (prepare_image_part P image_data image_uri) as [part|e].
    + apply after_call_passes_through.
    + apply Herr.
  - intros text image_data image_uri.
    rewrite analyze_multimodal_emotion_shape, image_part_step.
    destruct (prepare_image_part P image_data image_uri) as [part|e].
    + apply after_call_passes_through.
    + apply Herr.
Qed.

Lemma results_pass_through_witness :
  passes_through (scripted (says nested_reply) noon) (world0 _)
    (Some (CPrompt (text_prompt (scripted (says nested_reply) noon)
                      (PStr (py "I am happy")))))
    (py "text")
    (stamp (py "text") noon [ (py "a", PDict [ (py "b", PInt 1) ]) ]).
Proof.
  apply (proj1 (results_pass_through (scripted (says nested_reply) noon) (world0 _)
                  (stamp (py "text") noon [ (py "a", PDict [ (py "b", PInt 1) ]) ]))
           (PStr (py "I am happy"))).
  vm_compute. reflexivity.
Defined.

(** C9, as stated, fails: the model answers [{"a":{"b":1}}] and the text
    handler returns that object, stamped, with the nested object still
    under [a]. *)
Lemma flat_record_counterexample :
  fst (analyze_text_emotion (scripted (says nested_reply) noon)
         (PStr (py "I am happy")) (world0 _))
  = Ok (stamp (py "text") noon [ (py "a", PDict [ (py "b", PInt 1) ]) ])
  /\ flat (stamp (py "text") noon [ (py "a", PDict [ (py "b", PInt 1) ]) ]) = false.
Proof. split; vm_compute; reflexivity. Qed.

(** *** The image part *)

(** C10.  When the image URI is given (it is truthy), the image and the
    multimodal handler do the same whatever inline image data comes with
    it, and the one call they make to the model carries the prompt and
    the part built from the URI. *)
Theorem uri_takes_precedence (P : Platform) (image_uri : pyobj)
    (w : World (Part P)) :
  truthy image_uri = true ->
  (forall image_data image_data',
      analyze_image_emotion P image_data image_uri w
      = analyze_image_emotion P image_data' image_uri w
      /\ forall text,
           analyze_multimodal_emotion P text image_data image_uri w
           = analyze_multimodal_emotion P text image_data' image_uri w)
  /\ (forall part image_data,
      Part_from_uri P image_uri (py "image/jpeg") = Ok part ->
      upstream_requests (snd (analyze_image_emotion P image_data image_uri w))
      = upstream_requests w ++ [CParts image_prompt part]
      /\ forall text,
           upstream_requests
             (snd (analyze_multimodal_emotion P text image_data image_uri w))
           = upstream_requests w ++ [CParts (multimodal_prompt P text) part]).
Proof.
  intros Hu.
  assert (Hp : forall image_data,
             prepare_image_part P image_data image_uri
             = Part_from_uri P image_uri (py "image/jpeg")).
  { intros image_data. unfold prepare_image_part. now rewrite Hu. }
  split.
  - intros image_data image_data'. split; [|intros text].
    + rewrite !analyze_image_emotion_shape.
      now rewrite (Hp image_data), (Hp image_data').
    + rewrite !analyze_multimodal_emotion_shape.
      now rewrite (Hp image_data), (Hp image_data').
  - intros part image_data Hpart. split; [|intros text].
    + rewrite analyze_image_emotion_shape, image_part_step, Hp, Hpart.
      apply after_call_requests.
    + rewrite analyze_multimodal_emotion_shape, image_part_step, Hp, Hpart.
      apply after_call_requests.
Qed.

Lemma uri_takes_precedence_witness :
  upstream_requests
    (snd (analyze_image_emotion (scripted (says fenced_joy) noon)
            (PStr (py "aGVsbG8=")) gs_uri (world0 _)))
  = [CParts image_prompt (true, gs_uri, py "image/jpeg")].
Proof.
  apply (proj1 (proj2 (@uri_takes_precedence (scripted (says fenced_joy) noon)
                         gs_uri (world0 _) eq_refl)
                 (true, gs_uri, py "image/jpeg") (PStr (py "aGVsbG8=")) eq_refl)).
Defined.

(** ** Further properties of the decoder and the routes *)

Section Effects.

Variable P : Platform.

Notation "'world'" := (World (Part P)) (only parsing).

(** A block under the handlers' [except] branch always returns. *)
Lemma try_on_error_returns (what : str) (block : M world pyobj) (w : world) :
  exists r w', try_except block (on_error P what) w = (Ok r, w').
Proof. exact (proj1 (try_on_error_catches P what block w)). Qed.

(** The world after a handler that got as far as the call: the clock is
    the time at which the call came back, the call is recorded, and one
    record is logged, [INFO] beside a stamped mapping and [ERROR] beside
    the error record. *)
Lemma after_call_effects (input_type what what' : str)
    (c : content (Part P)) (w : world) :
  let t := snd (generate_content P w c) in
  let out := try_except (response <- model_generate_content P c ;;
                         finish P input_type what response)
                        (on_error P what') w in
  exists l msg,
    snd out = mkWorld t (upstream_requests w ++ [c]) (log w ++ [(l, msg)])
    /\ ((l = INFO /\ exists d, fst out = Ok (stamp input_type t d))
        \/ (l = ERROR /\ exists m, fst out = Ok (error_record m t))).
Proof.
  cbv zeta. unfold try_except, bind, model_generate_content.
  destruct (generate_content P w c) as [[response|e] t] eqn:G; cbn [snd].
  2:{ rewrite on_error_returns. eexists ERROR, _. split; [reflexivity|].
      right. split; [reflexivity|]. now eexists. }
  set (w1 := mkWorld t (upstream_requests w ++ [c]) (log w)).
  pose proof (finish_cases P input_type what response w1) as F.
  destruct (Response.text response) as [reply|e] eqn:T.
  2:{ rewrite F, on_error_returns. eexists ERROR, _. split; [reflexivity|].
      right. split; [reflexivity|]. now eexists. }
  destruct (_parse_emotion_response reply) as [| | | | | | |d] eqn:E;
    try (destruct F as (e & _ & ->); rewrite on_error_returns;
         eexists ERROR, _; split; [reflexivity|];
         right; split; [reflexivity|]; now eexists).
  destruct F as (msg & ->). eexists INFO, msg. split; [reflexivity|].
  left. split; [reflexivity|]. now exists d.
Qed.

Lemma jsonify_cases (obj : pyobj) (w : world) :
  jsonify P obj w
  = (match jsonify_error P obj with Some e => Raise e | None => Ok obj end, w).
Proof. reflexivity. Qed.

(** The routes over a JSON object, by cases on what the handler gives. *)
Lemma analyze_text_on_dict (d : dict) (w : world) :
  analyze_text P (Ok (PDict d)) w
  = if truthy (field d (py "text") (PStr [])) then
      match analyze_text_emotion P (field d (py "text") (PStr [])) w with
      | (Ok r, w') => respond P (py "analyze_text") r w'
      | (Raise e, w') =>
          (Ok {| status := 500; body := error_body (exn_msg e) |},
           logged_error (py "analyze_text") (exn_msg e) w')
      end
    else (Ok (bad_request (py "Text is required")), w).
Proof.
  unfold analyze_text, try_except, bind, lift, get_method, field, respond.
  destruct (truthy _); cbn [negb]; [|now rewrite jsonify_error_body].
  destruct (analyze_text_emotion P _ w) as [[r|e] w'].
  - rewrite jsonify_cases. destruct (jsonify_error P r) as [e|]; [|reflexivity].
    unfold logger. now rewrite jsonify_error_body.
  - unfold logger. now rewrite jsonify_error_body.
Qed.

Lemma analyze_image_on_dict (d : dict) (w : world) :
  analyze_image P (Ok (PDict d)) w
  = if negb (truthy (field d (py "image") PNone))
       && negb (truthy (field d (py "image_uri") PNone)) then
      (Ok (bad_request (py "Image data or URI is required")), w)
    else
      match analyze_image_emotion P (field d (py "image") PNone)
              (field d (py "image_uri") PNone) w with
      | (Ok r, w') => respond P (py "analyze_image") r w'
      | (Raise e, w') =>
          (Ok {| status := 500; body := error_body (exn_msg e) |},
           logged_error (py "analyze_image") (exn_msg e) w')
      end.
Proof.
  unfold analyze_image, try_except, bind, lift, get_method, field, respond.
  destruct (negb _ && negb _); [now rewrite jsonify_error_body|].
  destruct (analyze_image_emotion P _ _ w) as [[r|e] w'].
  - rewrite jsonify_cases. destruct (jsonify_error P r) as [e|]; [|reflexivity].
    unfold logger. now rewrite jsonify_error_body.
  - unfold logger. now rewrite jsonify_error_body.
Qed.

Lemma analyze_multimodal_on_dict (d : dict) (w : world) :
  analyze_multimodal P (Ok (PDict d)) w
  = if negb (truthy (field d (py "text") (PStr []))) then
      (Ok (bad_request (py "Text is required")), w)
    else if negb (truthy (field d (py "image") PNone))
            && negb (truthy (field d (py "image_uri") PNone)) then
      (Ok (bad_request (py "Image data or URI is required")), w)
    else
      match analyze_multimodal_emotion P (field d (py "text") (PStr []))
              (field d (py "image") PNone) (field d (py "image_uri") PNone) w with
      | (Ok r, w') => respond P (py "analyze_multimodal") r w'
      | (Raise e, w') =>
          (Ok {| status := 500; body := error_body (exn_msg e) |},
           logged_error (py "analyze_multimodal") (exn_msg e) w')
      end.
Proof.
  unfold analyze_multimodal, try_except, bind, lift, get_method, field, respond.
  destruct (truthy _); cbn [negb]; [|now rewrite jsonify_error_body].
  destruct (negb _ && negb _); [now rewrite jsonify_error_body|].
  destruct (analyze_multimodal_emotion P _ _ _ w) as [[r|e] w'].
  - rewrite jsonify_cases. destruct (jsonify_error P r) as [e|]; [|reflexivity].
    unfold logger. now rewrite jsonify_error_body.
  - unfold logger. now rewrite jsonify_error_body.
Qed.

(** The three handlers always return a record. *)
Lemma analyze_text_emotion_returns (text : pyobj) (w : world) :
  exists r w', analyze_text_emotion P text w = (Ok r, w').
Proof. rewrite analyze_text_emotion_shape. apply try_on_error_returns. Qed.

Lemma analyze_image_emotion_returns (image_data image_uri : pyobj) (w : world) :
  exists r w', analyze_image_emotion P image_data image_uri w = (Ok r, w').
Proof. rewrite analyze_image_emotion_shape. apply try_on_error_returns. Qed.

Lemma analyze_multimodal_emotion_returns (text image_data image_uri : pyobj)
    (w : world) :
  exists r w',
    analyze_multimodal_emotion P text image_data image_uri w = (Ok r, w').
Proof. rewrite analyze_multimodal_emotion_shape. apply try_on_error_returns. Qed.

(** A route over a body that cannot be used: the body could not be read,
    or it is not an object and has no [get]. *)
Lemma unusable_body (get_json : Result pyobj) :
  (exists e, get_json = Raise e)
  \/ (exists data, get_json = Ok data /\ is_dict data = false)
  \/ (exists d, get_json = Ok (PDict d)).
Proof.
  destruct get_json as [data|e]; [|left; now exists e].
  right. destruct data; try (left; eexists; split; reflexivity).
  right. now eexists.
Qed.

End Effects.

(** *** What the routes answer *)

(** The routes over a body they cannot use. *)
Lemma body_failure_routes (P : Platform) (get_json : Result pyobj)
    (msg : str) (w : World (Part P)) :
  body_failure get_json = Some msg ->
  analyze_text P get_json w
  = (Ok {| status := 500; body := error_body msg |},
     logged_error (py "analyze_text") msg w)
  /\ analyze_image P get_json w
     = (Ok {| status := 500; body := error_body msg |},
        logged_error (py "analyze_image") msg w)
  /\ analyze_multimodal P get_json w
     = (Ok {| status := 500; body := error_body msg |},
        logged_error (py "analyze_multimodal") msg w).
Proof.
  intros H.
  assert (E : exists e, exn_msg e = msg
                        /\ (get_json = Raise e
                            \/ exists data, get_json = Ok data
                                            /\ get_method data (py "text") (PStr []) = Raise e
                                            /\ get_method data (py "image") PNone = Raise e)).
  { destruct get_json as [data|e].
    - destruct data; cbn in H; try discriminate; injection H as <-;
        (eexists; split; [|right; eexists; split; [reflexivity|split; reflexivity]];
         reflexivity).
    - cbn in H. injection H as <-. exists e. split; [reflexivity | now left]. }
  destruct E as (e & <- & [-> | (data & -> & Ht & Hi)]).
  - unfold analyze_text, analyze_image, analyze_multimodal, try_except, bind,
      lift, logger.
    rewrite !jsonify_error_body. repeat split; reflexivity.
  - unfold analyze_text, analyze_image, analyze_multimodal, try_except, bind, lift.
    rewrite Ht, Hi. unfold logger.
    rewrite !jsonify_error_body. repeat split; reflexivity.
Qed.

Lemma respond_answers (P : Platform) (name : str) (r : pyobj) (w : World (Part P)) :
  exists resp w',
    respond P name r w = (Ok resp, w')
    /\ (status resp = 200 \/ status resp = 400 \/ status resp = 500).
Proof.
  unfold respond. destruct (jsonify_error P r);
    eexists; eexists; (split; [reflexivity|]); cbn; auto.
Qed.

(** X1.  No route lets an exception out: whatever the body of the
    request and whatever the model does, each of the three analysis
    routes returns a response with status 200, 400 or 500, and the
    health probe returns 200 without touching the world. *)
Theorem routes_never_raise (P : Platform) (get_json : Result pyobj)
    (w : World (Part P)) :
  answers (analyze_text P get_json) w
  /\ answers (analyze_image P get_json) w
  /\ answers (analyze_multimodal P get_json) w
  /\ exists resp, health_check P w = (Ok resp, w) /\ status resp = 200.
Proof.
  assert (Hh : exists resp, health_check P w = (Ok resp, w) /\ status resp = 200).
  { unfold health_check, bind, datetime_now. rewrite jsonify_plain_ok by reflexivity.
    eexists. split; reflexivity. }
  unfold answers.
  destruct (body_failure get_json) as [msg|] eqn:B.
  - destruct (body_failure_routes P get_json w B) as (-> & -> & ->).
    repeat split; try exact Hh;
      (eexists; eexists; split; [reflexivity | right; right; reflexivity]).
  - assert (exists d, get_json = Ok (PDict d)) as [d ->].
    { destruct get_json as [[]|]; try discriminate. now eexists. }
    rewrite analyze_text_on_dict, analyze_image_on_dict, analyze_multimodal_on_dict.
    split; [|split; [|split; [|exact Hh]]].
    + destruct (truthy (field d (py "text") (PStr []))).
      * destruct (analyze_text_emotion_returns P (field d (py "text") (PStr [])) w)
          as (r & w' & ->).
        apply respond_answers.
      * eexists; eexists; split; [reflexivity | right; left; reflexivity].
    + destruct (negb _ && negb _).
      * eexists; eexists; split; [reflexivity | right; left; reflexivity].
      * destruct (analyze_image_emotion_returns P (field d (py "image") PNone)
                    (field d (py "image_uri") PNone) w) as (r & w' & ->).
        apply respond_answers.
    + destruct (negb (truthy _)).
      * eexists; eexists; split; [reflexivity | right; left; reflexivity].
      * destruct (negb _ && negb _).
        -- eexists; eexists; split; [reflexivity | right; left; reflexivity].
        -- destruct (analyze_multimodal_emotion_returns P
                       (field d (py "text") (PStr []))
                       (field d (py "image") PNone)
                       (field d (py "image_uri") PNone) w) as (r & w' & ->).
           apply respond_answers.
Qed.

(** X2.  A request whose body could not be read, or whose body is JSON
    but not an object, is answered 500 by each route; the error of the
    body is the text of the exception, one [ERROR] record is logged and
    the model is not called. *)
Theorem unusable_body_is_500 (P : Platform) (get_json : Result pyobj)
    (msg : str) (w : World (Part P)) :
  body_failure get_json = Some msg ->
  analyze_text P get_json w
  = (Ok {| status := 500; body := error_body msg |},
     logged_error (py "analyze_text") msg w)
  /\ analyze_image P get_json w
     = (Ok {| status := 500; body := error_body msg |},
        logged_error (py "analyze_image") msg w)
  /\ analyze_multimodal P get_json w
     = (Ok {| status := 500; body := error_body msg |},
        logged_error (py "analyze_multimodal") msg w).
Proof. apply body_failure_routes. Qed.

Lemma unusable_body_is_500_witness :
  analyze_text (scripted (says fenced_joy) noon)
    (Ok (PList [ PStr (py "I am happy") ])) (world0 _)
  = (Ok {| status := 500;
           body := error_body (py "'list' object has no attribute 'get'") |},
     logged_error (py "analyze_text")
       (py "'list' object has no attribute 'get'") (world0 _)).
Proof.
  apply (proj1 (@unusable_body_is_500 (scripted (says fenced_joy) noon)
                  (Ok (PList [ PStr (py "I am happy") ]))
                  (py "'list' object has no attribute 'get'") (world0 _) eq_refl)).
Defined.

(** What the image handlers ask of the model: one call when the image
    part could be built, none otherwise. *)
Lemma image_handler_requests (P : Platform) (image_data image_uri : pyobj)
    (w : World (Part P)) :
  upstream_requests (snd (analyze_image_emotion P image_data image_uri w))
  = match prepare_image_part P image_data image_uri with
    | Ok part => upstream_requests w ++ [CParts image_prompt part]
    | Raise _ => upstream_requests w
    end.
Proof.
  rewrite analyze_image_emotion_shape, image_part_step.
  destruct (prepare_image_part P image_data image_uri) as [part|e].
  - apply after_call_requests.
  - now rewrite on_error_returns.
Qed.

Lemma multimodal_handler_requests (P : Platform) (text image_data image_uri : pyobj)
    (w : World (Part P)) :
  upstream_requests
    (snd (analyze_multimodal_emotion P text image_data image_uri w))
  = match prepare_image_part P image_data image_uri with
    | Ok part => upstream_requests w ++ [CParts (multimodal_prompt P text) part]
    | Raise _ => upstream_requests w
    end.
Proof.
  rewrite analyze_multimodal_emotion_shape, image_part_step.
  destruct (prepare_image_part P image_data image_uri) as [part|e].
  - apply after_call_requests.
  - now rewrite on_error_returns.
Qed.

(** X3.  Over a JSON object the text route decides on the truth value of
    [text] alone.  A falsy value of any type (missing, empty string, [0],
    [false], [null], empty list or object) is answered 400 with the world
    untouched.  A truthy one is handed to the handler, which makes
    exactly one call, carrying the text prompt, to the model; the answer
    is 200 with the handler's record when [jsonify] serializes it, and
    500 with the text of [jsonify]'s failure, logged as one more [ERROR]
    record, when it does not. *)
Theorem text_route_decides_on_truth (P : Platform) (d : dict) (w : World (Part P)) :
  (truthy (field d (py "text") (PStr [])) = false ->
   analyze_text P (Ok (PDict d)) w
   = (Ok (bad_request (py "Text is required")), w))
  /\ (truthy (field d (py "text") (PStr [])) = true ->
      exists r w',
        analyze_text_emotion P (field d (py "text") (PStr [])) w = (Ok r, w')
        /\ upstream_requests w'
           = upstream_requests w
             ++ [CPrompt (text_prompt P (field d (py "text") (PStr [])))]
        /\ (jsonify_error P r = None ->
            analyze_text P (Ok (PDict d)) w
            = (Ok {| status := 200; body := r |}, w'))
        /\ (forall e, jsonify_error P r = Some e ->
            analyze_text P (Ok (PDict d)) w
            = (Ok {| status := 500; body := error_body (exn_msg e) |},
               logged_error (py "analyze_text") (exn_msg e) w'))).
Proof.
  rewrite analyze_text_on_dict. split; intros ->; [reflexivity|].
  destruct (analyze_text_emotion_returns P (field d (py "text") (PStr [])) w)
    as (r & w' & E).
  exists r, w'. rewrite E. split; [reflexivity|]. split.
  - change w' with (snd (Ok r, w')). rewrite <- E.
    rewrite analyze_text_emotion_shape. apply after_call_requests.
  - unfold respond. split; [intros -> | intros e ->]; reflexivity.
Qed.

Lemma text_route_decides_on_truth_witness :
  analyze_text (brittle (says nested_reply) noon)
    (Ok (PDict [ (py "text", PStr (py "I am happy")) ])) (world0 _)
  = (Ok {| status := 500; body := error_body (exn_msg recursion_error) |},
     logged_error (py "analyze_text") (exn_msg recursion_error)
       (snd (analyze_text_emotion (brittle (says nested_reply) noon)
               (PStr (py "I am happy")) (world0 _)))).
Proof.
  destruct (proj2 (@text_route_decides_on_truth (brittle (says nested_reply) noon)
                     [ (py "text", PStr (py "I am happy")) ] (world0 _)) eq_refl)
    as (r & w' & E & _ & _ & H500).
  change (field [ (py "text", PStr (py "I am happy")) ] (py "text") (PStr []))
    with (PStr (py "I am happy")) in E.
  rewrite E. cbn [snd]. apply H500.
  vm_compute in E. injection E as <- _. reflexivity.
Defined.

(** X4.  Over a JSON object the image route answers 400 exactly when
    [image] and [image_uri] are both falsy, and the multimodal route
    exactly when [text] is falsy or both image fields are.  Otherwise
    the handler is called; the model was called once if the image part
    could be built and not at all if it could not; and the answer is 200
    with the handler's record when [jsonify] serializes it, 500 with the
    text of [jsonify]'s failure when it does not. *)
Theorem image_routes_decide_on_truth (P : Platform) (d : dict) (w : World (Part P)) :
  let text := field d (py "text") (PStr []) in
  let image := field d (py "image") PNone in
  let uri := field d (py "image_uri") PNone in
  (truthy image || truthy uri = true ->
   exists r w',
     analyze_image_emotion P image uri w = (Ok r, w')
     /\ analyze_image P (Ok (PDict d)) w = respond P (py "analyze_image") r w'
     /\ upstream_requests w'
        = match prepare_image_part P image uri with
          | Ok part => upstream_requests w ++ [CParts image_prompt part]
          | Raise _ => upstream_requests w
          end)
  /\ (truthy image || truthy uri = false ->
      analyze_image P (Ok (PDict d)) w
      = (Ok (bad_request (py "Image data or URI is required")), w))
  /\ (truthy text && (truthy image || truthy uri) = true ->
      exists r w',
        analyze_multimodal_emotion P text image uri w = (Ok r, w')
        /\ analyze_multimodal P (Ok (PDict d)) w
           = respond P (py "analyze_multimodal") r w'
        /\ upstream_requests w'
           = match prepare_image_part P image uri with
             | Ok part =>
                 upstream_requests w ++ [CParts (multimodal_prompt P text) part]
             | Raise _ => upstream_requests w
             end)
  /\ (truthy text && (truthy image || truthy uri) = false ->
      exists msg,
        analyze_multimodal P (Ok (PDict d)) w = (Ok (bad_request msg), w))
  /\ (forall name r w',
      (jsonify_error P r = None ->
       respond P name r w' = (Ok {| status := 200; body := r |}, w'))
      /\ (forall e, jsonify_error P r = Some e ->
          respond P name r w'
          = (Ok {| status := 500; body := error_body (exn_msg e) |},
             logged_error name (exn_msg e) w'))).
Proof.
  cbv zeta. rewrite analyze_image_on_dict, analyze_multimodal_on_dict.
  set (text := field d (py "text") (PStr [])).
  set (image := field d (py "image") PNone).
  set (uri := field d (py "image_uri") PNone).
  rewrite <- negb_orb. split; [|split; [|split; [|split]]].
  - intros ->. cbn [negb].
    destruct (analyze_image_emotion_returns P image uri w) as (r & w' & E).
    exists r, w'. rewrite E. split; [reflexivity|]. split; [reflexivity|].
    change w' with (snd (Ok r, w')). rewrite <- E.
    apply image_handler_requests.
  - intros ->. reflexivity.
  - intros H. apply andb_true_iff in H as [-> ->]. cbn [negb].
    destruct (analyze_multimodal_emotion_returns P text image uri w)
      as (r & w' & E).
    exists r, w'. rewrite E. split; [reflexivity|]. split; [reflexivity|].
    change w' with (snd (Ok r, w')). rewrite <- E.
    apply multimodal_handler_requests.
  - intros H. destruct (truthy text); cbn [negb]; [|eexists; reflexivity].
    cbn [andb] in H. rewrite H. eexists. reflexivity.
  - intros name r w'. unfold respond.
    split; [intros -> | intros e ->]; reflexivity.
Qed.

Lemma image_routes_decide_on_truth_witness :
  analyze_image (brittle (says nested_reply) noon)
    (Ok (PDict [ (py "image_uri", gs_uri) ])) (world0 _)
  = (Ok {| status := 500; body := error_body (exn_msg recursion_error) |},
     logged_error (py "analyze_image") (exn_msg recursion_error)
       (snd (analyze_image_emotion (brittle (says nested_reply) noon)
               PNone gs_uri (world0 _)))).
Proof.
  pose proof (@image_routes_decide_on_truth (brittle (says nested_reply) noon)
                [ (py "image_uri", gs_uri) ] (world0 _)) as H.
  cbv zeta in H. destruct (proj1 H eq_refl) as (r & w' & E & R & _).
  rewrite R. vm_compute in E. injection E as <- <-. vm_compute. reflexivity.
Defined.

(** X5.  A failure of the model is not an HTTP failure: when the call
    made for an accepted text request raises, the text route answers 200
    and the body is the error record of that failure. *)
Theorem model_failure_is_http_200 (P : Platform) (d : dict) (w : World (Part P))
    (e : exn) (t : datetime) :
  truthy (field d (py "text") (PStr [])) = true ->
  generate_content P w (CPrompt (text_prompt P (field d (py "text") (PStr []))))
  = (Raise e, t) ->
  fst (analyze_text P (Ok (PDict d)) w)
  = Ok {| status := 200; body := error_record (exn_msg e) t |}.
Proof.
  intros Ht G. rewrite analyze_text_on_dict, Ht, analyze_text_emotion_shape.
  unfold try_except, bind, model_generate_content. rewrite G.
  rewrite on_error_returns. unfold respond.
  now rewrite jsonify_plain by reflexivity.
Qed.

Lemma model_failure_is_http_200_witness :
  fst (analyze_text (scripted (Raise unavailable) noon)
         (Ok (PDict [ (py "text", PStr (py "I am happy")) ])) (world0 _))
  = Ok {| status := 200;
          body := error_record (py "503 upstream unavailable") noon |}.
Proof.
  apply (@model_failure_is_http_200 (scripted (Raise unavailable) noon)
           [ (py "text", PStr (py "I am happy")) ] (world0 _) unavailable noon);
    reflexivity.
Defined.

(** *** What the handlers do to the world *)

(** X6.  Every call of the text handler makes exactly one call to the
    model, with the text prompt alone, leaves the clock at the time that
    call came back, and logs exactly one record: [INFO] when it returns a
    stamped mapping, [ERROR] when it returns the error record. *)
Theorem text_handler_effects (P : Platform) (text : pyobj) (w : World (Part P)) :
  let c := CPrompt (text_prompt P text) in
  let t := snd (generate_content P w c) in
  let out := analyze_text_emotion P text w in
  exists l msg,
    snd out = mkWorld t (upstream_requests w ++ [c]) (log w ++ [(l, msg)])
    /\ ((l = INFO /\ exists d, fst out = Ok (stamp (py "text") t d))
        \/ (l = ERROR /\ exists m, fst out = Ok (error_record m t))).
Proof.
  cbv zeta. rewrite analyze_text_emotion_shape.
  apply (after_call_effects P (py "text") (py "Text") (py "text")).
Qed.

(** *** Inline images *)

(** X7.  Without a URI, inline image data given as text is base-64
    decoded before anything else: when the decoding fails, both image
    handlers return the error record of that failure, stamped with the
    clock as it was, log one [ERROR] record and never call the model. *)
Theorem undecodable_image_is_error (P : Platform) (s : str) (image_uri : pyobj)
    (e : exn) (w : World (Part P)) :
  truthy image_uri = false ->
  b64decode P s = Raise e ->
  analyze_image_emotion P (PStr s) image_uri w
  = (Ok (error_record (exn_msg e) (now w)),
     mkWorld (now w) (upstream_requests w)
       (log w ++ [(ERROR, py "Error analyzing image emotion: " ++ exn_msg e)]))
  /\ forall text,
       analyze_multimodal_emotion P text (PStr s) image_uri w
       = (Ok (error_record (exn_msg e) (now w)),
          mkWorld (now w) (upstream_requests w)
            (log w ++ [(ERROR, py "Error analyzing multimodal emotion: "
                                 ++ exn_msg e)])).
Proof.
  intros Hu Hd.
  assert (Hp : prepare_image_part P (PStr s) image_uri = Raise e).
  { unfold prepare_image_part. now rewrite Hu, Hd. }
  split; [|intros text].
  - now rewrite analyze_image_emotion_shape, image_part_step, Hp.
  - now rewrite analyze_multimodal_emotion_shape, image_part_step, Hp.
Qed.

Lemma undecodable_image_is_error_witness :
  analyze_image_emotion (undecodable (says fenced_joy) noon)
    (PStr (py "not base64")) PNone (world0 _)
  = (Ok (error_record (py "Incorrect padding") midnight),
     mkWorld midnight []
       [(ERROR, py "Error analyzing image emotion: Incorrect padding")]).
Proof.
  apply (proj1 (@undecodable_image_is_error (undecodable (says fenced_joy) noon)
                  (py "not base64") PNone bad_padding (world0 _)
                  eq_refl eq_refl)).
Defined.

(** X8.  Without a URI, the one call of the image handler carries the
    part built from the inline data: from the decoded bytes when the data
    is text, from the data itself, undecoded, when it is anything else
    (bytes, as the signature allows). *)
Theorem inline_image_is_sent (P : Platform) (image_data image_uri : pyobj)
    (part : Part P) (w : World (Part P)) :
  truthy image_uri = false ->
  (forall s bytes,
      image_data = PStr s -> b64decode P s = Ok bytes ->
      Part_from_data P bytes (py "image/jpeg") = Ok part ->
      upstream_requests (snd (analyze_image_emotion P image_data image_uri w))
      = upstream_requests w ++ [CParts image_prompt part])
  /\ (is_str image_data = false ->
      Part_from_data P image_data (py "image/jpeg") = Ok part ->
      upstream_requests (snd (analyze_image_emotion P image_data image_uri w))
      = upstream_requests w ++ [CParts image_prompt part]).
Proof.
  intros Hu. split.
  - intros s bytes -> Hd Hp. rewrite image_handler_requests.
    unfold prepare_image_part. rewrite Hu, Hd. cbn [rbind]. now rewrite Hp.
  - intros Hs Hp. rewrite image_handler_requests.
    unfold prepare_image_part. rewrite Hu.
    destruct image_data; try discriminate; cbn [rbind]; now rewrite Hp.
Qed.

Lemma inline_image_is_sent_witness :
  upstream_requests
    (snd (analyze_image_emotion (scripted (says fenced_joy) noon)
            (PBytes [255; 216; 255]%N) PNone (world0 _)))
  = [CParts image_prompt (false, PBytes [255; 216; 255]%N, py "image/jpeg")].
Proof.
  apply (proj2 (@inline_image_is_sent (scripted (says fenced_joy) noon)
                  (PBytes [255; 216; 255]%N) PNone
                  (false, PBytes [255; 216; 255]%N, py "image/jpeg")
                  (world0 _) eq_refl));
    reflexivity.
Defined.

(** *** The stamp *)

(** X9.  The model cannot choose the mode or the time of a result: when
    its reply decodes to a mapping, the record a handler returns carries
    the handler's own [input_type] and the time the call came back as
    [timestamp], whatever the reply held under those two keys, and every
    other key of the reply with its value unchanged. *)
Theorem model_cannot_spoof_stamp (P : Platform) (w : World (Part P))
    (response : Response.t) (t : datetime) (reply : str) (d : dict) :
  Response.text response = Ok reply ->
  _parse_emotion_response reply = PDict d ->
  (forall text,
      generate_content P w (CPrompt (text_prompt P text)) = (Ok response, t) ->
      exists r, fst (analyze_text_emotion P text w) = Ok r
                /\ stamped_over (py "text") t d r)
  /\ (forall image_data image_uri part,
      prepare_image_part P image_data image_uri = Ok part ->
      generate_content P w (CParts image_prompt part) = (Ok response, t) ->
      exists r, fst (analyze_image_emotion P image_data image_uri w) = Ok r
                /\ stamped_over (py "image") t d r)
  /\ (forall text image_data image_uri part,
      prepare_image_part P image_data image_uri = Ok part ->
      generate_content P w (CParts (multimodal_prompt P text) part)
      = (Ok response, t) ->
      exists r,
        fst (analyze_multimodal_emotion P text image_data image_uri w) = Ok r
        /\ stamped_over (py "multimodal") t d r).
Proof.
  intros T E. destruct (mapping_is_stamped P w response t T E) as (H1 & H2 & H3).
  split; [|split].
  - intros text G. eexists. split; [apply (H1 text G) | apply stamp_stamped_over].
  - intros image_data image_uri part Hp G. eexists.
    split; [apply (H2 _ _ _ Hp G) | apply stamp_stamped_over].
  - intros text image_data image_uri part Hp G. eexists.
    split; [apply (H3 _ _ _ _ Hp G) | apply stamp_stamped_over].
Qed.

Lemma model_cannot_spoof_stamp_witness :
  exists r,
    fst (analyze_text_emotion (scripted (says spoofing_reply) noon)
           (PStr (py "I am happy")) (world0 _)) = Ok r
    /\ stamped_over (py "text") noon
         [ (py "input_type", PStr (py "image"));
           (py "timestamp", PStr (py "1999"));
           (py "primary_emotion", PStr (py "joy")) ] r.
Proof.
  apply (proj1 (@model_cannot_spoof_stamp (scripted (says spoofing_reply) noon)
                  (world0 _) {| Response.text := Ok spoofing_reply |} noon
                  spoofing_reply
                  [ (py "input_type", PStr (py "image"));
                    (py "timestamp", PStr (py "1999"));
                    (py "primary_emotion", PStr (py "joy")) ]
                  eq_refl eq_refl) (PStr (py "I am happy")) eq_refl).
Defined.

(** *** More on the candidate *)

Lemma find_at_head (sep s : str) :
  starts_with sep s = true -> find sep s = Some 0.
Proof. intros H. destruct s; simpl; now rewrite H. Qed.

Lemma starts_with_self_app (p s : str) : starts_with p (p ++ s) = true.
Proof. induction p as [|a p IH]; simpl; [reflexivity|]. now rewrite N.eqb_refl. Qed.

Lemma starts_with_app_cancel (p q s : str) :
  starts_with (p ++ q) (p ++ s) = starts_with q s.
Proof. induction p as [|a p IH]; simpl; [reflexivity|]. now rewrite N.eqb_refl. Qed.

Lemma starts_with_backtick (q s : str) :
  starts_with [96%N] s = false -> starts_with (96%N :: q) s = false.
Proof.
  destruct s as [|c s]; [reflexivity|]. cbn [starts_with].
  destruct (96 =? c)%N; [discriminate | reflexivity].
Qed.

Lemma skipn_app_length (A : Type) (p r : list A) :
  skipn (List.length p) (p ++ r) = r.
Proof. induction p; simpl; auto. Qed.

Lemma firstn_app_length (A : Type) (p r : list A) :
  firstn (List.length p) (p ++ r) = p.
Proof. induction p; simpl; [reflexivity | now f_equal]. Qed.

(** A marker that begins with a backtick is not found inside a text
    without backticks. *)
Lemma find_past_prefix (q pre s : str) :
  no_backtick pre = true ->
  find (96%N :: q) (pre ++ s)
  = option_map (fun j => List.length pre + j) (find (96%N :: q) s).
Proof.
  induction pre as [|c pre IH]; intros H.
  - simpl. now destruct (find (96%N :: q) s).
  - cbn [no_backtick forallb] in H. apply andb_true_iff in H as [Hc H].
    cbn [app find starts_with]. rewrite N.eqb_sym.
    apply negb_true_iff in Hc. rewrite Hc. cbn [andb].
    fold (no_backtick pre) in H. rewrite (IH H).
    now destruct (find (96%N :: q) s).
Qed.

(** X10.  The JSON marker wins over everything before it: when the text
    holds the marker, the candidate is the one of the text from the first
    marker on, whatever comes before, earlier fenced blocks included. *)
Theorem json_marker_takes_precedence (raw_text : str) (i : nat) :
  find fence_json raw_text = Some i ->
  json_str raw_text = json_str (skipn i raw_text).
Proof.
  intros F. destruct (find_some fence_json_nonempty _ F) as (Hs & _).
  rewrite (json_str_json _ F), (json_str_json _ (find_at_head _ _ Hs)).
  rewrite skipn_skipn.
  now replace (0 + List.length fence_json + i) with (i + List.length fence_json)
    by lia.
Qed.

Lemma json_marker_takes_precedence_witness :
  json_str two_blocks = json_str (pyq "```json {'second':2} ```").
Proof.
  apply (@json_marker_takes_precedence two_blocks 25). vm_compute. reflexivity.
Defined.

(** X11.  Fencing is undone: a text without backticks, put between the
    JSON marker and a closing fence, after any prose without backticks
    and before anything that does not start with a backtick, is exactly
    the candidate; the extractor returns what [json.loads] makes of it,
    trimmed, and the fallback for the whole reply when it raises. *)
Theorem fenced_json_is_extracted (pre s post : str) :
  no_backtick pre = true ->
  no_backtick s = true ->
  starts_with [96%N] post = false ->
  json_str (pre ++ fence_json ++ s ++ fence ++ post) = Ok s
  /\ _parse_emotion_response (pre ++ fence_json ++ s ++ fence ++ post)
     = match json_loads (strip s) with
       | Ok v => v
       | Raise _ => fallback (pre ++ fence_json ++ s ++ fence ++ post)
       end.
Proof.
  intros Hpre Hs Hpost.
  set (rest := s ++ fence ++ post).
  assert (Fj : find fence_json (pre ++ fence_json ++ rest)
               = Some (List.length pre + 0)).
  { change fence_json with (96%N :: py "``json") at 1.
    rewrite (@find_past_prefix _ _ _ Hpre).
    change (96%N :: py "``json") with fence_json.
    now rewrite (@find_at_head _ _ (starts_with_self_app fence_json rest)). }
  assert (Ff : find fence rest = Some (List.length s + 0)).
  { unfold rest. change fence with (96%N :: py "``") at 1.
    rewrite (@find_past_prefix _ _ _ Hs).
    change (96%N :: py "``") with fence.
    now rewrite (@find_at_head _ _ (starts_with_self_app fence post)). }
  assert (Hov : fence_overlapped rest = false).
  { unfold fence_overlapped. rewrite Ff, Nat.add_0_r. unfold rest.
    rewrite skipn_app_length.
    change (py "````json") with (fence ++ 96%N :: py "json").
    change (py "`````json") with (fence ++ 96%N :: py "`json").
    rewrite !starts_with_app_cancel.
    now rewrite !(@starts_with_backtick _ _ Hpost). }
  assert (Hj : json_str (pre ++ fence_json ++ rest) = Ok s).
  { rewrite (json_str_json _ Fj), Nat.add_0_r.
    rewrite (Nat.add_comm (List.length pre)), <- skipn_skipn.
    rewrite skipn_app_length, skipn_app_length.
    rewrite (up_to_fence_through_marker _ Hov).
    unfold up_to. rewrite Ff, Nat.add_0_r. unfold rest.
    now rewrite firstn_app_length. }
  split; [exact Hj|]. apply (parse_of_candidate _ Hj).
Qed.

Lemma fenced_json_is_extracted_witness :
  _parse_emotion_response
    (py "Here you go: " ++ fence_json ++ pyq " {'primary_emotion':'joy'} "
     ++ fence ++ py " Hope it helps.")
  = PDict [ (py "primary_emotion", PStr (py "joy")) ].
Proof.
  rewrite (proj2 (@fenced_json_is_extracted (py "Here you go: ")
                    (pyq " {'primary_emotion':'joy'} ") (py " Hope it helps.")
                    eq_refl eq_refl eq_refl)).
  vm_compute. reflexivity.
Defined.

(** ** Properties of the API tester *)

Section TesterFacts.

Import Tester.

Variable C : Client.

Lemma prints_log (rs : list (str * option bool)) (message color : str) :
  prints_at rs (log message color) tt.
Proof. intros st <-. eexists. reflexivity. Qed.

Lemma prints_ret (A : Type) (rs : list (str * option bool)) (a : A) :
  prints_at rs (ret a) a.
Proof. intros st <-. exists []. unfold ret. now rewrite app_nil_r; destruct st. Qed.

Lemma prints_bind (A B : Type) (rs : list (str * option bool))
    (m : M state A) (k : A -> M state B) (a : A) (b : B) :
  prints_at rs m a -> prints_at rs (k a) b -> prints_at rs (bind m k) b.
Proof.
  intros Hm Hk st Hst. destruct (Hm st Hst) as (l1 & E1).
  destruct (Hk (mkState (base_url st) rs (console st ++ l1) (sent st)) eq_refl)
    as (l2 & E2).
  exists (l1 ++ l2). unfold bind. rewrite E1, E2. cbn. now rewrite app_assoc.
Qed.

Lemma prints_read (B : Type) (rs : list (str * option bool))
    (k : state -> M state B) (b : B) :
  (forall st0, results st0 = rs -> prints_at rs (k st0) b) ->
  prints_at rs (bind (fun st => (Ok st, st)) k) b.
Proof.
  intros Hk st Hst. destruct (Hk st Hst st Hst) as (l & E).
  exists l. unfold bind. exact E.
Qed.

Lemma prints_for_each (rs l : list (str * option bool)) :
  prints_at rs (for_each l) tt.
Proof.
  induction l as [|entry l IH]; cbn [for_each].
  - apply prints_ret.
  - apply prints_bind with tt; [|exact IH].
    unfold detail. destruct (snd entry) as [[|]|]; apply prints_log.
Qed.

(** The summary only prints, and its value is decided by the number of
    failed tests. *)
Lemma print_summary_prints (rs : list (str * option bool)) :
  prints_at rs (print_summary)
    (if count (Some false) rs =? 0 then 0 else 1).
Proof.
  unfold print_summary.
  do 3 (apply prints_bind with tt; [apply prints_log|]).
  apply prints_read. intros st0 Hrs. rewrite Hrs. cbv zeta.
  do 5 (apply prints_bind with tt; [apply prints_log|]).
  apply prints_bind with tt; [apply prints_for_each|].
  apply prints_bind with tt; [apply prints_log|].
  destruct (count (Some false) rs =? 0);
    (apply prints_bind with tt; [apply prints_log | apply prints_ret]).
Qed.

Lemma count_cons (v : option bool) (entry : str * option bool)
    (l : list (str * option bool)) :
  count v (entry :: l)
  = (if match snd entry, v with
        | Some a, Some b => Bool.eqb a b
        | None, None => true
        | _, _ => false
        end then 1 else 0) + count v l.
Proof. unfold count. cbn [filter]. now destruct (match snd entry, v with
        | Some a, Some b => Bool.eqb a b
        | None, None => true
        | _, _ => false
        end). Qed.

Lemma count_partition (l : list (str * option bool)) :
  count (Some true) l + count (Some false) l + count None l = List.length l.
Proof.
  induction l as [|[name [[|]|]] l IH]; [reflexivity| | |];
    rewrite !count_cons; cbn [snd Bool.eqb List.length]; lia.
Qed.

Lemma count_failed_zero (l : list (str * option bool)) :
  count (Some false) l = 0 <-> forall name, ~ In (name, Some false) l.
Proof.
  induction l as [|[name [[|]|]] l IH]; rewrite ?count_cons; cbn [snd Bool.eqb].
  - split; [intros _ name [] | reflexivity].
  - rewrite Nat.add_0_l, IH. split.
    + intros H n [[=]|Hin]. exact (H n Hin).
    + intros H n Hin. apply (H n). now right.
  - split; [discriminate|]. intros H. exfalso. apply (H name). now left.
  - rewrite Nat.add_0_l, IH. split.
    + intros H n [[=]|Hin]. exact (H n Hin).
    + intros H n Hin. apply (H n). now right.
Qed.

End TesterFacts.

Section TesterMethods.

Import Tester.

Variable C : Client.

Ltac run_test :=
  eexists; cbn [andb base_url results console sent]; rewrite <- ?app_assoc;
  reflexivity.

(** The health test sends one [GET] and records the verdict on it. *)
Lemma test_health_check_spec (st : state) :
  exists lines,
    test_health_check C st
    = (Ok (passes C (sent st) (GET (base_url st ++ py "/api/health") 10)),
       mkState (base_url st)
         (results st
          ++ [(py "Health Check",
               Some (passes C (sent st) (GET (base_url st ++ py "/api/health") 10)))])
         (console st ++ lines)
         (sent st ++ [GET (base_url st ++ py "/api/health") 10])).
Proof.
  unfold test_health_check, try_except, bind, log, print, self_base_url, send,
    results_append, lift, ret, passes.
  cbn [base_url results console sent].
  destruct (requests C (sent st) _) as [r|e]; [|run_test].
  destruct (status_code r =? 200); [|run_test].
  destruct (json r); run_test.
Qed.

(** The text test sends one [POST] with the text and records the verdict
    on it. *)
Lemma test_text_analysis_spec (text_arg : str) (st : state) :
  exists lines,
    test_text_analysis C text_arg st
    = (Ok (passes C (sent st)
             (POST (base_url st ++ py "/api/analyze/text")
                (PDict [ (py "text", PStr text_arg) ]) 30)),
       mkState (base_url st)
         (results st
          ++ [(py "Text Analysis",
               Some (passes C (sent st)
                       (POST (base_url st ++ py "/api/analyze/text")
                          (PDict [ (py "text", PStr text_arg) ]) 30)))])
         (console st ++ lines)
         (sent st ++ [POST (base_url st ++ py "/api/analyze/text")
                        (PDict [ (py "text", PStr text_arg) ]) 30])).
Proof.
  unfold test_text_analysis, try_except, bind, log, print, self_base_url, send,
    results_append, lift, ret, passes.
  cbn [base_url results console sent].
  destruct (requests C (sent st) _) as [r|e]; [|run_test].
  destruct (status_code r =? 200); [|run_test].
  destruct (json r); run_test.
Qed.

(** Without a usable image the two image tests are skipped: no request
    is sent and the entry is [None]. *)
Lemma test_image_analysis_skips (image : option str) (st : state) :
  usable C image = false ->
  exists lines,
    test_image_analysis C image st
    = (Ok true,
       mkState (base_url st) (results st ++ [(py "Image Analysis", None)])
         (console st ++ lines) (sent st)).
Proof.
  intros H.
  unfold test_image_analysis, try_except, bind, log, print, self_base_url,
    results_append, lift, ret.
  cbn [base_url results console sent].
  destruct image as [[|c p]|]; try run_test.
  cbn [usable] in H. rewrite H. run_test.
Qed.

Lemma test_multimodal_analysis_skips (text_arg : str) (image : option str)
    (st : state) :
  usable C image = false ->
  exists lines,
    test_multimodal_analysis C text_arg image st
    = (Ok true,
       mkState (base_url st) (results st ++ [(py "Multimodal Analysis", None)])
         (console st ++ lines) (sent st)).
Proof.
  intros H.
  unfold test_multimodal_analysis, try_except, bind, log, print, self_base_url,
    results_append, lift, ret.
  cbn [base_url results console sent].
  destruct image as [[|c p]|]; try run_test.
  cbn [usable] in H. rewrite H. run_test.
Qed.

Ltac recorded b o reqs :=
  exists b, o; eexists; exists reqs;
  cbn [andb base_url results console sent]; rewrite <- ?app_assoc;
  rewrite ?(app_nil_r (sent _));
  split; [reflexivity | split; [reflexivity | cbn; lia]].

Lemma test_image_analysis_records (image : option str) :
  records (py "Image Analysis") (test_image_analysis C image).
Proof.
  intros st.
  unfold test_image_analysis, try_except, bind, log, print, self_base_url, send,
    results_append, lift, ret.
  cbn [base_url results console sent].
  destruct image as [[|c p]|];
    try (recorded true (@None bool) (@nil request)).
  destruct (path_exists C (c :: p));
    [|recorded true (@None bool) (@nil request)].
  destruct (read_bytes C (c :: p)) as [bytes|e];
    [|recorded false (Some false) (@nil request)].
  cbn [base_url results console sent].
  match goal with
  | |- context [requests C (sent st) ?r] =>
      destruct (requests C (sent st) r) as [rp|e];
        [|recorded false (Some false) [r]];
      destruct (status_code rp =? 200); [|recorded false (Some false) [r]];
      destruct (json rp);
        [recorded true (Some true) [r] | recorded false (Some false) [r]]
  end.
Qed.

Lemma test_multimodal_analysis_records (text_arg : str) (image : option str) :
  records (py "Multimodal Analysis") (test_multimodal_analysis C text_arg image).
Proof.
  intros st.
  unfold test_multimodal_analysis, try_except, bind, log, print, self_base_url,
    send, results_append, lift, ret.
  cbn [base_url results console sent].
  destruct image as [[|c p]|];
    try (recorded true (@None bool) (@nil request)).
  destruct (path_exists C (c :: p));
    [|recorded true (@None bool) (@nil request)].
  destruct (read_bytes C (c :: p)) as [bytes|e];
    [|recorded false (Some false) (@nil request)].
  cbn [base_url results console sent].
  match goal with
  | |- context [requests C (sent st) ?r] =>
      destruct (requests C (sent st) r) as [rp|e];
        [|recorded false (Some false) [r]];
      destruct (status_code rp =? 200); [|recorded false (Some false) [r]];
      destruct (json rp);
        [recorded true (Some true) [r] | recorded false (Some false) [r]]
  end.
Qed.

End TesterMethods.

(** Stripping one code point from the front: what is dropped is a run
    of it, and what is left does not begin with it. *)
Lemma lstrip_chars_single (c : char) (s : str) :
  exists n,
    s = repeat c n ++ lstrip_chars [c] s
    /\ forall t, lstrip_chars [c] s <> c :: t.
Proof.
  induction s as [|x s IH].
  - exists 0. split; [reflexivity | discriminate].
  - cbn [lstrip_chars existsb]. rewrite orb_false_r.
    destruct (x =? c)%N eqn:E.
    + apply N.eqb_eq in E as ->. destruct IH as (n & Hs & Hn).
      exists (S n). split; [cbn [repeat app]; now f_equal | exact Hn].
    + exists 0. split; [reflexivity|].
      intros t [= -> _]. now rewrite N.eqb_refl in E.
Qed.

(** X12.  The tester's base URL never ends with a slash: the constructor
    drops every trailing slash of the URL it is given and nothing else,
    and starts with no results, so the endpoints are joined with a single
    slash. *)
Theorem base_url_is_trimmed (url : str) (st : Tester.state) :
  let st' := snd (Tester.init url st) in
  (exists n, url = Tester.base_url st' ++ repeat 47%N n)
  /\ (forall b, Tester.base_url st' <> b ++ [47%N])
  /\ Tester.results st' = []
  /\ Tester.sent st' = Tester.sent st.
Proof.
  cbv zeta. cbn [Tester.init snd Tester.base_url Tester.results Tester.sent].
  unfold rstrip_chars. change (py "/") with [47%N].
  destruct (lstrip_chars_single 47%N (rev url)) as (n & Hs & Hn).
  repeat split.
  - exists n. rewrite <- (rev_involutive url) at 1.
    rewrite Hs at 1. now rewrite rev_app_distr, rev_repeat.
  - intros b Hb. apply (Hn (rev b)).
    apply (f_equal (@rev char)) in Hb.
    now rewrite rev_involutive, rev_app_distr in Hb.
Qed.

(** X13.  Every test method returns without raising, whatever the
    network and the disk do; it adds exactly one entry, under its own
    name, to the results; it returns [False] exactly when that entry is
    [False]; it sends at most one request and keeps the base URL. *)
Theorem tests_record_one_result (C : Tester.Client) (text_arg : str)
    (image : option str) :
  Tester.records (py "Health Check") (Tester.test_health_check C)
  /\ Tester.records (py "Text Analysis") (Tester.test_text_analysis C text_arg)
  /\ Tester.records (py "Image Analysis") (Tester.test_image_analysis C image)
  /\ Tester.records (py "Multimodal Analysis")
       (Tester.test_multimodal_analysis C text_arg image).
Proof.
  split; [|split; [|split]].
  - intros st. destruct (test_health_check_spec C st) as (lines & E).
    eexists _, _, lines, [_]. split; [exact E|].
    split; [now destruct (Tester.passes _ _ _) | cbn; lia].
  - intros st. destruct (test_text_analysis_spec C text_arg st) as (lines & E).
    eexists _, _, lines, [_]. split; [exact E|].
    split; [now destruct (Tester.passes _ _ _) | cbn; lia].
  - apply test_image_analysis_records.
  - apply test_multimodal_analysis_records.
Qed.

(** X14.  The verdict of the health test and of the text test: each
    sends exactly one request ([GET /api/health] with a timeout of 10,
    [POST /api/analyze/text] with the text and a timeout of 30) and
    records [True] exactly when the service answered 200 with a body
    that reads as JSON; any other status, an unreadable body and a
    failure of the network are all recorded as [False]. *)
Theorem first_tests_verdicts (C : Tester.Client) (text_arg : str)
    (st : Tester.state) :
  let health := Tester.GET (Tester.base_url st ++ py "/api/health") 10 in
  let post := Tester.POST (Tester.base_url st ++ py "/api/analyze/text")
                (PDict [ (py "text", PStr text_arg) ]) 30 in
  (exists lines,
      Tester.test_health_check C st
      = (Ok (Tester.passes C (Tester.sent st) health),
         Tester.mkState (Tester.base_url st)
           (Tester.results st
            ++ [(py "Health Check", Some (Tester.passes C (Tester.sent st) health))])
           (Tester.console st ++ lines) (Tester.sent st ++ [health])))
  /\ (exists lines,
      Tester.test_text_analysis C text_arg st
      = (Ok (Tester.passes C (Tester.sent st) post),
         Tester.mkState (Tester.base_url st)
           (Tester.results st
            ++ [(py "Text Analysis", Some (Tester.passes C (Tester.sent st) post))])
           (Tester.console st ++ lines) (Tester.sent st ++ [post]))).
Proof.
  cbv zeta. split.
  - apply test_health_check_spec.
  - apply test_text_analysis_spec.
Qed.

(** X15.  Without a usable image (no path, an empty path, or a path
    that does not exist) the image test and the multimodal test are
    skipped: they send nothing, record [None] and return [True]. *)
Theorem image_tests_skip_without_image (C : Tester.Client) (text_arg : str)
    (image : option str) (st : Tester.state) :
  Tester.usable C image = false ->
  (exists lines,
      Tester.test_image_analysis C image st
      = (Ok true,
         Tester.mkState (Tester.base_url st)
           (Tester.results st ++ [(py "Image Analysis", None)])
           (Tester.console st ++ lines) (Tester.sent st)))
  /\ (exists lines,
      Tester.test_multimodal_analysis C text_arg image st
      = (Ok true,
         Tester.mkState (Tester.base_url st)
           (Tester.results st ++ [(py "Multimodal Analysis", None)])
           (Tester.console st ++ lines) (Tester.sent st))).
Proof.
  intros H. split.
  - now apply test_image_analysis_skips.
  - now apply test_multimodal_analysis_skips.
Qed.

Lemma image_tests_skip_without_image_witness :
  exists lines,
    Tester.test_image_analysis (Tester.steady Tester.healthy)
      (Some (py "face.jpg")) Tester.fresh
    = (Ok true,
       Tester.mkState [] [(py "Image Analysis", None)] lines []).
Proof.
  apply (proj1 (@image_tests_skip_without_image (Tester.steady Tester.healthy)
                  (py "hello") (Some (py "face.jpg")) Tester.fresh eq_refl)).
Defined.

Lemma emits_log (rs : list (str * option bool)) (message color : str) :
  Tester.emits_at rs (Tester.log message color) tt [Tester.colored message color].
Proof. intros st <-. reflexivity. Qed.

Lemma emits_ret (A : Type) (rs : list (str * option bool)) (a : A) :
  Tester.emits_at rs (ret a) a [].
Proof. intros st <-. unfold ret. rewrite app_nil_r. now destruct st. Qed.

Lemma emits_bind (A B : Type) (rs : list (str * option bool))
    (m : M Tester.state A) (k : A -> M Tester.state B) (a : A) (b : B)
    (l1 l2 : list str) :
  Tester.emits_at rs m a l1 -> Tester.emits_at rs (k a) b l2 ->
  Tester.emits_at rs (bind m k) b (l1 ++ l2).
Proof.
  intros Hm Hk st Hst. unfold bind. rewrite (Hm st Hst).
  rewrite (Hk (Tester.mkState (Tester.base_url st) rs (Tester.console st ++ l1)
                 (Tester.sent st)) eq_refl).
  cbn [Tester.base_url Tester.console Tester.sent]. now rewrite app_assoc.
Qed.

Lemma emits_read (B : Type) (rs : list (str * option bool))
    (k : Tester.state -> M Tester.state B) (b : B) (ls : list str) :
  (forall st0, Tester.results st0 = rs -> Tester.emits_at rs (k st0) b ls) ->
  Tester.emits_at rs (bind (fun st => (Ok st, st)) k) b ls.
Proof. intros Hk st Hst. unfold bind. exact (Hk st Hst st Hst). Qed.

(** The loop over the results prints one line for each, in order. *)
Lemma emits_for_each (rs l : list (str * option bool)) :
  Tester.emits_at rs (Tester.for_each l) tt (map Tester.detail_line l).
Proof.
  induction l as [|entry l IH]; cbn [Tester.for_each map].
  - apply emits_ret.
  - apply (@emits_bind _ _ rs _ _ tt tt [Tester.detail_line entry]); [|exact IH].
    unfold Tester.detail, Tester.detail_line.
    destruct (snd entry) as [[|]|]; apply emits_log.
Qed.

(** All that the summary prints, and its value. *)
Lemma print_summary_emits (rs : list (str * option bool)) :
  Tester.emits_at rs Tester.print_summary
    (if Tester.count (Some false) rs =? 0 then 0 else 1)
    (Tester.summary_head
     ++ Tester.count_lines (List.length rs) (Tester.count (Some true) rs)
          (Tester.count (Some false) rs) (Tester.count None rs)
     ++ [Tester.colored (10%N :: py "Detailed Results:") (py "END")]
     ++ map Tester.detail_line rs
     ++ Tester.verdict_lines (Tester.count (Some false) rs)).
Proof.
  assert (H : exists ls,
             Tester.emits_at rs Tester.print_summary
               (if Tester.count (Some false) rs =? 0 then 0 else 1) ls
             /\ ls = Tester.summary_head
                     ++ Tester.count_lines (List.length rs)
                          (Tester.count (Some true) rs)
                          (Tester.count (Some false) rs) (Tester.count None rs)
                     ++ [Tester.colored (10%N :: py "Detailed Results:") (py "END")]
                     ++ map Tester.detail_line rs
                     ++ Tester.verdict_lines (Tester.count (Some false) rs)).
  { unfold Tester.print_summary, Tester.verdict_lines.
    destruct (Tester.count (Some false) rs =? 0) eqn:F.
    - eexists. split.
      + do 3 (eapply emits_bind; [apply emits_log|]).
        apply emits_read. intros st0 Hrs. rewrite Hrs, F. cbv zeta.
        do 5 (eapply emits_bind; [apply emits_log|]).
        eapply emits_bind; [apply emits_for_each|].
        eapply emits_bind; [apply emits_log|].
        eapply emits_bind; [apply emits_log | apply emits_ret].
      + reflexivity.
    - eexists. split.
      + do 3 (eapply emits_bind; [apply emits_log|]).
        apply emits_read. intros st0 Hrs. rewrite Hrs, F. cbv zeta.
        do 5 (eapply emits_bind; [apply emits_log|]).
        eapply emits_bind; [apply emits_for_each|].
        eapply emits_bind; [apply emits_log|].
        eapply emits_bind; [apply emits_log | apply emits_ret].
      + reflexivity. }
  destruct H as (ls & H & ->). exact H.
Qed.

(** X16.  The summary changes nothing but the console.  It prints its
    head, then the number of results and the numbers of passed, failed
    and skipped ones, which add up to the number of results, then one
    line per result in order, then the verdict.  Its exit code is 0
    exactly when no recorded result is [False], and 1 otherwise: skipped
    tests do not fail a run, and a run with no result at all passes. *)
Theorem print_summary_exit_code (st : Tester.state) :
  let rs := Tester.results st in
  let passed := Tester.count (Some true) rs in
  let failed := Tester.count (Some false) rs in
  let skipped := Tester.count None rs in
  exists code,
    Tester.print_summary st
    = (Ok code,
       Tester.mkState (Tester.base_url st) rs
         (Tester.console st
          ++ Tester.summary_head
          ++ Tester.count_lines (List.length rs) passed failed skipped
          ++ [Tester.colored (10%N :: py "Detailed Results:") (py "END")]
          ++ map Tester.detail_line rs
          ++ Tester.verdict_lines failed)
         (Tester.sent st))
    /\ passed + failed + skipped = List.length rs
    /\ (code = 0 <-> forall name, ~ In (name, Some false) rs)
    /\ (code = 0 \/ code = 1).
Proof.
  cbv zeta.
  exists (if Tester.count (Some false) (Tester.results st) =? 0 then 0 else 1).
  split; [|split; [apply count_partition|]].
  - exact (@print_summary_emits (Tester.results st) st eq_refl).
  - rewrite <- count_failed_zero. split.
    + destruct (Tester.count (Some false) (Tester.results st)); cbn; split;
        congruence.
    + destruct (Tester.count (Some false) (Tester.results st) =? 0); auto.
Qed.

Section TesterRun.

Import Tester.

Variable C : Client.

Lemma ends_bind (A B : Type) (m : M state A) (k : A -> M state B) (st : state)
    (a : A) (b : B) (base base' : str) (rs rs' : list (str * option bool))
    (reqs reqs' : list request) :
  ends m st a base rs reqs ->
  (forall lines,
      ends (k a) (mkState base rs (console st ++ lines) reqs) b base' rs' reqs') ->
  ends (bind m k) st b base' rs' reqs'.
Proof.
  intros (l1 & E1) Hk. destruct (Hk l1) as (l2 & E2).
  exists (l1 ++ l2). unfold bind. rewrite E1, E2. cbn [console].
  now rewrite app_assoc.
Qed.

Lemma print_ends (line : str) (st : state) :
  ends (print line) st tt (base_url st) (results st) (sent st).
Proof. now exists [line]. Qed.

Lemma init_ends (url : str) (st : state) :
  ends (init url) st tt (rstrip_chars (py "/") url) [] (sent st).
Proof. exists []. unfold init. now rewrite app_nil_r. Qed.

Lemma test_health_check_ends (st : state) :
  ends (test_health_check C) st
    (passes C (sent st) (GET (base_url st ++ py "/api/health") 10))
    (base_url st)
    (results st
     ++ [(py "Health Check",
          Some (passes C (sent st) (GET (base_url st ++ py "/api/health") 10)))])
    (sent st ++ [GET (base_url st ++ py "/api/health") 10]).
Proof. apply test_health_check_spec. Qed.

Lemma test_text_analysis_ends (text_arg : str) (st : state) :
  ends (test_text_analysis C text_arg) st
    (passes C (sent st)
       (POST (base_url st ++ py "/api/analyze/text")
          (PDict [ (py "text", PStr text_arg) ]) 30))
    (base_url st)
    (results st
     ++ [(py "Text Analysis",
          Some (passes C (sent st)
                  (POST (base_url st ++ py "/api/analyze/text")
                     (PDict [ (py "text", PStr text_arg) ]) 30)))])
    (sent st ++ [POST (base_url st ++ py "/api/analyze/text")
                   (PDict [ (py "text", PStr text_arg) ]) 30]).
Proof. apply test_text_analysis_spec. Qed.

Lemma test_image_analysis_ends (image : option str) (st : state) :
  usable C image = false ->
  ends (test_image_analysis C image) st true (base_url st)
    (results st ++ [(py "Image Analysis", None)]) (sent st).
Proof. apply test_image_analysis_skips. Qed.

Lemma test_multimodal_analysis_ends (text_arg : str) (image : option str)
    (st : state) :
  usable C image = false ->
  ends (test_multimodal_analysis C text_arg image) st true (base_url st)
    (results st ++ [(py "Multimodal Analysis", None)]) (sent st).
Proof. apply test_multimodal_analysis_skips. Qed.

Lemma print_summary_ends (st : state) :
  ends print_summary st
    (if count (Some false) (results st) =? 0 then 0 else 1)
    (base_url st) (results st) (sent st).
Proof. exact (@print_summary_prints (results st) st eq_refl). Qed.

End TesterRun.

(** X17.  A run without a usable image: [main] sends exactly two
    requests, the health probe and then the text analysis, to the URL
    with its trailing slashes removed; it records four results in the
    order of the tests, the two image tests as skipped; and it exits
    with 0 exactly when both requests were answered 200 with a JSON
    body, with 1 otherwise. *)
Theorem main_without_image (C : Tester.Client) (url text_arg : str)
    (image : option str) (st : Tester.state) :
  Tester.usable C image = false ->
  let base := rstrip_chars (py "/") url in
  let health := Tester.GET (base ++ py "/api/health") 10 in
  let post := Tester.POST (base ++ py "/api/analyze/text")
                (PDict [ (py "text", PStr text_arg) ]) 30 in
  let b1 := Tester.passes C (Tester.sent st) health in
  let b2 := Tester.passes C (Tester.sent st ++ [health]) post in
  exists lines,
    Tester.main C url text_arg image st
    = (Ok (if b1 && b2 then 0 else 1),
       Tester.mkState base
         [ (py "Health Check", Some b1); (py "Text Analysis", Some b2);
           (py "Image Analysis", None); (py "Multimodal Analysis", None) ]
         (Tester.console st ++ lines)
         (Tester.sent st ++ [health; post])).
Proof.
  intros H. cbv zeta.
  replace (Tester.sent st
           ++ [Tester.GET (rstrip_chars (py "/") url ++ py "/api/health") 10;
               Tester.POST (rstrip_chars (py "/") url ++ py "/api/analyze/text")
                 (PDict [ (py "text", PStr text_arg) ]) 30])
    with ((Tester.sent st
           ++ [Tester.GET (rstrip_chars (py "/") url ++ py "/api/health") 10])
          ++ [Tester.POST (rstrip_chars (py "/") url ++ py "/api/analyze/text")
                (PDict [ (py "text", PStr text_arg) ]) 30])
    by now rewrite <- app_assoc.
  change (Tester.ends (Tester.main C url text_arg image) st
            (if Tester.passes C (Tester.sent st)
                  (Tester.GET (rstrip_chars (py "/") url ++ py "/api/health") 10)
                && Tester.passes C
                     (Tester.sent st
                      ++ [Tester.GET (rstrip_chars (py "/") url ++ py "/api/health") 10])
                     (Tester.POST (rstrip_chars (py "/") url ++ py "/api/analyze/text")
                        (PDict [ (py "text", PStr text_arg) ]) 30)
             then 0 else 1)
            (rstrip_chars (py "/") url)
            [ (py "Health Check",
               Some (Tester.passes C (Tester.sent st)
                       (Tester.GET (rstrip_chars (py "/") url ++ py "/api/health") 10)));
              (py "Text Analysis",
               Some (Tester.passes C
                       (Tester.sent st
                        ++ [Tester.GET (rstrip_chars (py "/") url ++ py "/api/health") 10])
                       (Tester.POST (rstrip_chars (py "/") url ++ py "/api/analyze/text")
                          (PDict [ (py "text", PStr text_arg) ]) 30)));
              (py "Image Analysis", None); (py "Multimodal Analysis", None) ]
            ((Tester.sent st
              ++ [Tester.GET (rstrip_chars (py "/") url ++ py "/api/health") 10])
             ++ [Tester.POST (rstrip_chars (py "/") url ++ py "/api/analyze/text")
                   (PDict [ (py "text", PStr text_arg) ]) 30])).
  unfold Tester.main.
  do 3 (eapply ends_bind; [apply print_ends|]; intros ?;
        cbn [Tester.base_url Tester.results Tester.console Tester.sent]).
  eapply ends_bind; [apply init_ends|]. intros ?.
  cbn [Tester.base_url Tester.results Tester.console Tester.sent].
  eapply ends_bind; [apply test_health_check_ends|]. intros ?.
  cbn [Tester.base_url Tester.results Tester.console Tester.sent app].
  eapply ends_bind; [apply test_text_analysis_ends|]. intros ?.
  cbn [Tester.base_url Tester.results Tester.console Tester.sent app].
  eapply ends_bind; [apply (test_image_analysis_ends C image _ H)|]. intros ?.
  cbn [Tester.base_url Tester.results Tester.console Tester.sent app].
  eapply ends_bind; [apply (test_multimodal_analysis_ends C text_arg image _ H)|].
  intros ?.
  cbn [Tester.base_url Tester.results Tester.console Tester.sent app].
  destruct (Tester.passes C (Tester.sent st) _),
           (Tester.passes C (Tester.sent st ++ _) _);
    apply print_summary_ends.
Qed.

Lemma main_without_image_witness :
  exists lines,
    Tester.main (Tester.steady Tester.healthy) (py "http://localhost:8080//")
      (py "I am happy") None Tester.fresh
    = (Ok 0,
       Tester.mkState (py "http://localhost:8080")
         [ (py "Health Check", Some true); (py "Text Analysis", Some true);
           (py "Image Analysis", None); (py "Multimodal Analysis", None) ]
         lines
         [ Tester.GET (py "http://localhost:8080/api/health") 10;
           Tester.POST (py "http://localhost:8080/api/analyze/text")
             (PDict [ (py "text", PStr (py "I am happy")) ]) 30 ]).
Proof.
  apply (@main_without_image (Tester.steady Tester.healthy)
           (py "http://localhost:8080//") (py "I am happy") None Tester.fresh
           eq_refl).
Defined.

Section TesterImages.

Import Tester.

Variable C : Client.

Ltac run_image_test :=
  eexists; cbn [andb base_url results console sent]; rewrite <- ?app_assoc;
  reflexivity.

(** With a file that exists, the image test reads it first: a file that
    cannot be read is recorded as failed with nothing sent; otherwise its
    bytes go out, base-64 encoded, in one [POST], whose verdict is
    recorded. *)
Lemma test_image_analysis_with_file (c : char) (p : str) (st : state) :
  path_exists C (c :: p) = true ->
  match read_bytes C (c :: p) with
  | Raise _ =>
      exists lines,
        test_image_analysis C (Some (c :: p)) st
        = (Ok false,
           mkState (base_url st) (results st ++ [(py "Image Analysis", Some false)])
             (console st ++ lines) (sent st))
  | Ok bytes =>
      exists lines,
        test_image_analysis C (Some (c :: p)) st
        = (Ok (passes C (sent st)
                 (POST (base_url st ++ py "/api/analyze/image")
                    (PDict [ (py "image", PStr (b64encode C bytes)) ]) 60)),
           mkState (base_url st)
             (results st
              ++ [(py "Image Analysis",
                   Some (passes C (sent st)
                           (POST (base_url st ++ py "/api/analyze/image")
                              (PDict [ (py "image", PStr (b64encode C bytes)) ])
                              60)))])
             (console st ++ lines)
             (sent st ++ [POST (base_url st ++ py "/api/analyze/image")
                            (PDict [ (py "image", PStr (b64encode C bytes)) ]) 60]))
  end.
Proof.
  intros H.
  unfold test_image_analysis, try_except, bind, log, print, self_base_url, send,
    results_append, lift, ret, passes.
  cbn [base_url results console sent]. rewrite H.
  destruct (read_bytes C (c :: p)) as [bytes|e]; [|run_image_test].
  cbn [base_url results console sent].
  destruct (requests C (sent st) _) as [r|e]; [|run_image_test].
  destruct (status_code r =? 200); [|run_image_test].
  destruct (json r); run_image_test.
Qed.

Lemma test_multimodal_analysis_with_file (text_arg : str) (c : char) (p : str)
    (st : state) :
  path_exists C (c :: p) = true ->
  match read_bytes C (c :: p) with
  | Raise _ =>
      exists lines,
        test_multimodal_analysis C text_arg (Some (c :: p)) st
        = (Ok false,
           mkState (base_url st)
             (results st ++ [(py "Multimodal Analysis", Some false)])
             (console st ++ lines) (sent st))
  | Ok bytes =>
      exists lines,
        test_multimodal_analysis C text_arg (Some (c :: p)) st
        = (Ok (passes C (sent st)
                 (POST (base_url st ++ py "/api/analyze/multimodal")
                    (PDict [ (py "text", PStr text_arg);
                             (py "image", PStr (b64encode C bytes)) ]) 60)),
           mkState (base_url st)
             (results st
              ++ [(py "Multimodal Analysis",
                   Some (passes C (sent st)
                           (POST (base_url st ++ py "/api/analyze/multimodal")
                              (PDict [ (py "text", PStr text_arg);
                                       (py "image", PStr (b64encode C bytes)) ])
                              60)))])
             (console st ++ lines)
             (sent st ++ [POST (base_url st ++ py "/api/analyze/multimodal")
                            (PDict [ (py "text", PStr text_arg);
                                     (py "image", PStr (b64encode C bytes)) ]) 60]))
  end.
Proof.
  intros H.
  unfold test_multimodal_analysis, try_except, bind, log, print, self_base_url,
    send, results_append, lift, ret, passes.
  cbn [base_url results console sent]. rewrite H.
  destruct (read_bytes C (c :: p)) as [bytes|e]; [|run_image_test].
  cbn [base_url results console sent].
  destruct (requests C (sent st) _) as [r|e]; [|run_image_test].
  destruct (status_code r =? 200); [|run_image_test].
  destruct (json r); run_image_test.
Qed.

End TesterImages.

(** X18.  With an image file that exists, the image test and the
    multimodal test read it before anything is sent.  If the file cannot
    be read the test is recorded as failed and no request goes out.
    Otherwise exactly one [POST] goes out, with a timeout of 60, carrying
    the base-64 text of the file's bytes under [image] (and the text
    under [text] for the multimodal test), and the verdict on it is
    recorded. *)
Theorem image_tests_with_file (C : Tester.Client) (text_arg : str) (c : char)
    (p : str) (st : Tester.state) :
  Tester.path_exists C (c :: p) = true ->
  (forall e, Tester.read_bytes C (c :: p) = Raise e ->
     (exists lines,
         Tester.test_image_analysis C (Some (c :: p)) st
         = (Ok false,
            Tester.mkState (Tester.base_url st)
              (Tester.results st ++ [(py "Image Analysis", Some false)])
              (Tester.console st ++ lines) (Tester.sent st)))
     /\ (exists lines,
         Tester.test_multimodal_analysis C text_arg (Some (c :: p)) st
         = (Ok false,
            Tester.mkState (Tester.base_url st)
              (Tester.results st ++ [(py "Multimodal Analysis", Some false)])
              (Tester.console st ++ lines) (Tester.sent st))))
  /\ (forall bytes, Tester.read_bytes C (c :: p) = Ok bytes ->
     let image_post :=
       Tester.POST (Tester.base_url st ++ py "/api/analyze/image")
         (PDict [ (py "image", PStr (Tester.b64encode C bytes)) ]) 60 in
     let multimodal_post :=
       Tester.POST (Tester.base_url st ++ py "/api/analyze/multimodal")
         (PDict [ (py "text", PStr text_arg);
                  (py "image", PStr (Tester.b64encode C bytes)) ]) 60 in
     (exists lines,
         Tester.test_image_analysis C (Some (c :: p)) st
         = (Ok (Tester.passes C (Tester.sent st) image_post),
            Tester.mkState (Tester.base_url st)
              (Tester.results st
               ++ [(py "Image Analysis",
                    Some (Tester.passes C (Tester.sent st) image_post))])
              (Tester.console st ++ lines) (Tester.sent st ++ [image_post])))
     /\ (exists lines,
         Tester.test_multimodal_analysis C text_arg (Some (c :: p)) st
         = (Ok (Tester.passes C (Tester.sent st) multimodal_post),
            Tester.mkState (Tester.base_url st)
              (Tester.results st
               ++ [(py "Multimodal Analysis",
                    Some (Tester.passes C (Tester.sent st) multimodal_post))])
              (Tester.console st ++ lines)
              (Tester.sent st ++ [multimodal_post])))).
Proof.
  intros H.
  pose proof (test_image_analysis_with_file C c p st H) as Hi.
  pose proof (test_multimodal_analysis_with_file C text_arg c p st H) as Hm.
  split.
  - intros e He. rewrite He in Hi, Hm. now split.
  - intros bytes Hb. rewrite Hb in Hi, Hm. cbv zeta. now split.
Qed.

Lemma image_tests_with_file_witness :
  exists lines,
    Tester.test_image_analysis Tester.pictured (Some (py "face.jpg")) Tester.fresh
    = (Ok false,
       Tester.mkState [] [(py "Image Analysis", Some false)] lines []).
Proof.
  apply (proj1 (proj1 (@image_tests_with_file Tester.pictured (py "hello")
                         102%N (py "ace.jpg") Tester.fresh eq_refl)
                 (Exn (OtherError (py "PermissionError")) (py "Permission denied"))
                 eq_refl)).
Defined.
